(** * QuantCrux front end: the authenticated API client and the session holder

    A shallow embedding of
    - [src/services/authService.ts]: the axios client with its request
      and response interceptors, and the [authService] object;
    - the module of [portfolioService]: the axios client of an ordinary
      service module;
    - the module of [AuthProvider]: the session holder (startup, logout).

    The browser and the network are explicit state: [localStorage] is a
    finite map from keys to strings, [window.location.href] a string, the
    backend an arbitrary state machine answering one request at a time, and
    every request put on the network is appended to a log.  Promises are
    run to completion one after the other (the event loop is single
    threaded); a promise that is awaited is a value [Fulfilled]/[Rejected],
    and the chain of nested awaits is bounded by a fuel argument. *)

From Stdlib Require Import ZArith String List Lia.
From stdpp Require Import base option gmap strings list.

Local Open Scope string_scope.
Local Open Scope list_scope.
Local Open Scope Z_scope.
Local Open Scope nat_scope.

(** ** JavaScript values used by the code *)

Module Js.

(** A JSON object whose fields are strings ([User], [LoginResponse] and
    the refresh request body are such objects; TypeScript interfaces are
    erased at run time). *)
Abbreviation Json := (gmap string string).

(** [if (token)] on a [string | null]: [null] and the empty string are
    falsy. *)
Definition truthy (v : option string) : bool :=
  match v with
  | Some s => negb (String.eqb s EmptyString)
  | None => false
  end.

(** [`${v}`] on a [string | null]. *)
Definition template (v : option string) : string :=
  match v with
  | Some s => s
  | None => "null"
  end.

(** [String(v)] on a [string | undefined], the coercion [setItem]
    applies to its value. *)
Definition to_String (v : option string) : string :=
  match v with
  | Some s => s
  | None => "undefined"
  end.

(** The Web Storage interface. *)
Definition getItem (key : string) (storage : gmap string string) : option string :=
  storage !! key.

Definition setItem (key value : string) (storage : gmap string string)
  : gmap string string :=
  <[key := value]> storage.

Definition removeItem (key : string) (storage : gmap string string)
  : gmap string string :=
  delete key storage.

End Js.

(** ** The axios client, as far as the code relies on it *)

Module Axios.
Import Js.

Inductive Method := GET | POST | PUT | DELETE.

(** A request configuration.  [_retry] is the field the response
    interceptor adds; a configuration that never went through it has no
    such field, which reads as [false]. *)
Record Config := mkConfig {
  url : string;
  method : Method;
  headers : gmap string string;
  data : option Json;
  _retry : bool
}.

Definition set_header (name value : string) (c : Config) : Config :=
  mkConfig (url c) (method c) (<[name := value]> (headers c)) (data c) (_retry c).

Definition set_retry (b : bool) (c : Config) : Config :=
  mkConfig (url c) (method c) (headers c) (data c) b.

(** [axios.create({ baseURL, headers: {'Content-Type': 'application/json'} })]
    followed by [.get(url)] or [.post(url, data)]. *)
Definition defaults : gmap string string :=
  {[ "Content-Type" := "application/json" ]}.

Definition get (u : string) : Config := mkConfig u GET defaults None false.

Definition post (u : string) (d : option Json) : Config :=
  mkConfig u POST defaults d false.

(** The envelope [ApiResponse<T>] every backend response uses. *)
Record ApiResponse := mkApiResponse {
  success : bool;
  message : string;
  payload : option Json   (* the envelope's [data] field *)
}.

Record AxiosResponse := mkResponse {
  status : Z;
  body : ApiResponse      (* [response.data] *)
}.

(** What the network does with a request. *)
Inductive Outcome :=
| NetworkError
| Answer (r : AxiosResponse).

(** What a promise can be rejected with: an axios error carrying the
    request configuration and, when the server answered, the response;
    or a plain [Error]. *)
Inductive Error :=
| AxiosError (config : Config) (response : option AxiosResponse)
| JsError (msg : string).

Inductive Promise (T : Type) :=
| Fulfilled (v : T)
| Rejected (e : Error).
Arguments Fulfilled {T} v.
Arguments Rejected {T} e.

(** axios's default [validateStatus]. *)
Definition validateStatus (st : Z) : bool :=
  (200 <=? st)%Z && (st <? 300)%Z.

(** The browser and the backend.  [wire] logs every request handed to
    the network, with the contents of [localStorage] at that moment. *)
Record World (B : Type) := mkWorld {
  localStorage : gmap string string;
  href : string;                       (* [window.location.href] *)
  backend : B;
  wire : list (Config * gmap string string)
}.
Arguments mkWorld {B}.
Arguments localStorage {B}.
Arguments href {B}.
Arguments backend {B}.
Arguments wire {B}.

Definition set_localStorage {B} (st : gmap string string) (w : World B) : World B :=
  mkWorld st (href w) (backend w) (wire w).

Definition set_href {B} (h : string) (w : World B) : World B :=
  mkWorld (localStorage w) h (backend w) (wire w).

Section Dispatch.
Context {B : Type} (serve : B → Config → B * Outcome).

(** The adapter: the request goes out, the backend moves on. *)
Definition send (c : Config) (w : World B) : World B * Outcome :=
  let '(b, o) := serve (backend w) c in
  (mkWorld (localStorage w) (href w) b (wire w ++ [(c, localStorage w)]), o).

(** A request without the response interceptors: it settles with the
    response on a status accepted by [validateStatus], with an axios
    error otherwise. *)
Definition dispatch (c : Config) (w : World B)
  : World B * (AxiosResponse + Error) :=
  let '(w1, o) := send c w in
  match o with
  | Answer r =>
      if validateStatus (status r) then (w1, inl r)
      else (w1, inr (AxiosError c (Some r)))
  | NetworkError => (w1, inr (AxiosError c None))
  end.
End Dispatch.

End Axios.

(** ** [src/services/authService.ts] *)

Module AuthService.
Import Js Axios.

(** [apiClient.interceptors.request.use((config) => ...)] *)
Definition requestInterceptor (storage : gmap string string) (config : Config)
  : Config :=
  let token := getItem "accessToken" storage in
  if truthy token
  then set_header "Authorization" ("Bearer " +:+ template token) config
  else config.

Definition getAccessToken {B} (w : World B) : option string :=
  getItem "accessToken" (localStorage w).

Definition getRefreshToken {B} (w : World B) : option string :=
  getItem "refreshToken" (localStorage w).

Definition removeTokens {B} (w : World B) : World B :=
  set_localStorage
    (removeItem "refreshToken" (removeItem "accessToken" (localStorage w))) w.

Definition isAuthenticated {B} (w : World B) : bool :=
  truthy (getAccessToken w).

Section Backend.
Context {B : Type} (serve : B → Config → B * Outcome).

(** A call of the client as the interceptors see it. *)
Definition Client : Type :=
  Config → World B → option (World B * Promise AxiosResponse).

(** The request [authService.refreshToken] posts. *)
Definition refreshRequest (refreshToken : option string) : Config :=
  post "/auth/refresh" (Some {[ "refreshToken" := template refreshToken ]}).

(** What [authService.refreshToken] does once its request resolved. *)
Definition storeTokens (response : AxiosResponse) (w : World B) : World B :=
  match payload (body response) with
  | Some d =>
      if success (body response)
      then
        set_localStorage
          (setItem "refreshToken" (to_String (d !! "refreshToken"))
             (setItem "accessToken" (to_String (d !! "accessToken"))
                (localStorage w))) w
      else w
  | None => w
  end.

(** [authService.refreshToken], over the client it posts through. *)
Definition refreshToken_via (client : Client) (w : World B)
  : option (World B * Promise unit) :=
  let refreshToken := getItem "refreshToken" (localStorage w) in
  if negb (truthy refreshToken)
  then Some (w, Rejected (JsError "No refresh token available"))
  else
    match client (refreshRequest refreshToken) w with
    | None => None
    | Some (w1, Rejected e) => Some (w1, Rejected e)
    | Some (w1, Fulfilled response) => Some (storeTokens response w1, Fulfilled tt)
    end.

(** The request the response interceptor sends again. *)
Definition retryRequest (storage : gmap string string) (originalRequest : Config)
  : Config :=
  let token := getItem "accessToken" storage in
  set_header "Authorization" ("Bearer " +:+ template token) originalRequest.

(** The teardown of the [catch] block. *)
Definition toLogin (w : World B) : World B :=
  set_href "/login" (removeTokens w).

(** [apiClient.interceptors.response.use((response) => response,
    async (error) => ...)], the second handler. *)
Definition responseRejected (client : Client) (error : Error) (w : World B)
  : option (World B * Promise AxiosResponse) :=
  match error with
  | AxiosError originalRequest (Some response) =>
      if (status response =? 401)%Z && negb (_retry originalRequest)
      then
        let originalRequest := set_retry true originalRequest in
        match refreshToken_via client w with
        | None => None
        | Some (w1, Fulfilled _) =>
            client (retryRequest (localStorage w1) originalRequest) w1
        | Some (w1, Rejected refreshError) =>
            Some (toLogin w1, Rejected refreshError)
        end
      else Some (w, Rejected error)
  | _ => Some (w, Rejected error)
  end.

(** [apiClient(config)]: request interceptor, network, response
    interceptors.  [None] means the promise has not settled within
    [fuel] nested calls of the client. *)
Fixpoint apiClient (fuel : nat) (config : Config) (w : World B)
  : option (World B * Promise AxiosResponse) :=
  match fuel with
  | O => None
  | S fuel' =>
      match dispatch serve (requestInterceptor (localStorage w) config) w with
      | (w1, inl response) => Some (w1, Fulfilled response)
      | (w1, inr error) => responseRejected (apiClient fuel') error w1
      end
  end.

Definition refreshToken (fuel : nat) (w : World B)
  : option (World B * Promise unit) :=
  refreshToken_via (apiClient fuel) w.

(** [authService.logout]: the error of the backend call is logged to
    the console and dropped. *)
Definition logout (fuel : nat) (w : World B) : option (World B * Promise unit) :=
  match apiClient fuel (post "/auth/logout" None) w with
  | None => None
  | Some (w1, _) => Some (removeTokens w1, Fulfilled tt)
  end.

(** [authService.getProfile] *)
Definition getProfile (fuel : nat) (w : World B)
  : option (World B * Promise Json) :=
  match apiClient fuel (get "/auth/profile") w with
  | None => None
  | Some (w1, Rejected e) => Some (w1, Rejected e)
  | Some (w1, Fulfilled response) =>
      match payload (body response) with
      | Some d =>
          if success (body response) then Some (w1, Fulfilled d)
          else Some (w1, Rejected (JsError "Failed to get user profile"))
      | None => Some (w1, Rejected (JsError "Failed to get user profile"))
      end
  end.

(** [authService.register]: the response is not looked at. *)
Definition register (fuel : nat) (data : Json) (w : World B)
  : option (World B * Promise unit) :=
  match apiClient fuel (post "/auth/register" (Some data)) w with
  | None => None
  | Some (w1, Rejected e) => Some (w1, Rejected e)
  | Some (w1, Fulfilled _) => Some (w1, Fulfilled tt)
  end.
End Backend.

(** [enum UserRole] *)
Inductive UserRole := CLIENT | PORTFOLIO_MANAGER | RESEARCHER | ADMIN.

(** The value of a member of the enum: its name, as a string. *)
Definition roleName (r : UserRole) : string :=
  match r with
  | CLIENT => "CLIENT"
  | PORTFOLIO_MANAGER => "PORTFOLIO_MANAGER"
  | RESEARCHER => "RESEARCHER"
  | ADMIN => "ADMIN"
  end.

End AuthService.

(** ** The module of [portfolioService]

    The client of the portfolio module.  The strategy, backtest, product,
    trade, market-data and analytics modules construct theirs with the
    same text. *)

Module PortfolioService.
Import Js Axios.

(** [apiClient.interceptors.request.use((config) => ...)] *)
Definition requestInterceptor (storage : gmap string string) (config : Config)
  : Config :=
  let token := getItem "accessToken" storage in
  if truthy token
  then set_header "Authorization" ("Bearer " +:+ template token) config
  else config.

Section Backend.
Context {B : Type} (serve : B → Config → B * Outcome).

(** [apiClient(config)]: no response interceptor is installed. *)
Definition apiClient (config : Config) (w : World B)
  : World B * Promise AxiosResponse :=
  match dispatch serve (requestInterceptor (localStorage w) config) w with
  | (w1, inl response) => (w1, Fulfilled response)
  | (w1, inr error) => (w1, Rejected error)
  end.

(** [apiClient.delete(url)] *)
Definition deleteRequest (u : string) : Config := mkConfig u DELETE defaults None false.

(** [portfolioService.deletePortfolio]: only the [success] flag of the
    envelope is tested. *)
Definition deletePortfolio (id : string) (w : World B) : World B * Promise unit :=
  match apiClient (deleteRequest ("/portfolios/" +:+ id)) w with
  | (w1, Rejected e) => (w1, Rejected e)
  | (w1, Fulfilled response) =>
      if negb (success (body response))
      then (w1, Rejected (JsError "Failed to delete portfolio"))
      else (w1, Fulfilled tt)
  end.
End Backend.

End PortfolioService.

(** ** The module of [AuthProvider] *)

Module AuthContext.
Import Js Axios.

(** The two [useState] cells of [AuthProvider]. *)
Record AuthState := mkAuthState {
  user : option Json;
  loading : bool
}.

(** [useState<User | null>(null)], [useState(true)]. *)
Definition initialState : AuthState := mkAuthState None true.

Definition setUser (u : option Json) (s : AuthState) : AuthState :=
  mkAuthState u (loading s).

Definition setLoading (b : bool) (s : AuthState) : AuthState :=
  mkAuthState (user s) b.

Section Backend.
Context {B : Type} (serve : B → Config → B * Outcome).

(** [initializeAuth], run once when the provider mounts. *)
Definition initializeAuth (fuel : nat) (w : World B) (s : AuthState)
  : option (World B * AuthState) :=
  let token := AuthService.getAccessToken w in
  if truthy token
  then
    match AuthService.getProfile serve fuel w with
    | None => None
    | Some (w1, Fulfilled userProfile) =>
        Some (w1, setLoading false (setUser (Some userProfile) s))
    | Some (w1, Rejected _) =>
        Some (AuthService.removeTokens w1, setLoading false s)
    end
  else Some (w, setLoading false s).

(** [logout]: [authService.logout()] is started and not awaited;
    [setUser(null)] runs at once.  The first component is the world
    once the pending call has settled, if it does within [fuel]. *)
Definition logout (fuel : nat) (w : World B) (s : AuthState)
  : option (World B) * AuthState :=
  (fst <$> AuthService.logout serve fuel w, setUser None s).

(** [register]: the error, if any, is thrown again; no state is set. *)
Definition register (fuel : nat) (data : Json) (w : World B) (s : AuthState)
  : option (World B * AuthState * Promise unit) :=
  match AuthService.register serve fuel data w with
  | None => None
  | Some (w1, p) => Some (w1, s, p)
  end.

(** [refreshToken]: when the refresh is rejected, [logout()] is called
    (and, as there, not awaited) and the error is thrown again.  The first
    component is the world once everything pending has settled. *)
Definition refreshToken (fuel : nat) (w : World B) (s : AuthState)
  : option (option (World B) * AuthState * Promise unit) :=
  match AuthService.refreshToken serve fuel w with
  | None => None
  | Some (w1, Fulfilled _) => Some (Some w1, s, Fulfilled tt)
  | Some (w1, Rejected error) =>
      let '(w2, s2) := logout fuel w1 s in
      Some (w2, s2, Rejected error)
  end.
End Backend.

End AuthContext.

(** ** [src/App.tsx] *)

Module App.
Import Js Axios AuthContext.

Inductive Page :=
| LoginPage | RegisterPage | Dashboard
| StrategiesPage | StrategyBuilderPage
| BacktestsPage | BacktestResultsPage
| ProductsPage | ProductBuilderPage | ProductDetailsPage
| PortfoliosPage | PortfolioDetailsPage | PortfolioBuilderPage
| TradeDeskPage | AnalyticsPage | MarketDataPage.

(** What a [<Route>] is given as its [element]. *)
Inductive Element :=
| Render (page : Page)
| Navigate (to : string).

Inductive View :=
| LoadingSpinner
| Routes (routes : list (string * Element)).

(** [user ? a : b] on a [User | null]. *)
Definition ifUser {A} (u : option Json) (a b : A) : A :=
  match u with
  | Some _ => a
  | None => b
  end.

(** [AppRoutes], over the [user] and [loading] that [useAuth()] hands it. *)
Definition AppRoutes (s : AuthState) : View :=
  let user := user s in
  if loading s then LoadingSpinner
  else
    Routes
      [ ("/login", ifUser user (Navigate "/dashboard") (Render LoginPage));
        ("/register", ifUser user (Navigate "/dashboard") (Render RegisterPage));
        ("/dashboard", ifUser user (Render Dashboard) (Navigate "/login"));
        ("/strategies", ifUser user (Render StrategiesPage) (Navigate "/login"));
        ("/strategies/new", ifUser user (Render StrategyBuilderPage) (Navigate "/login"));
        ("/strategies/:id/edit",
         ifUser user (Render StrategyBuilderPage) (Navigate "/login"));
        ("/backtests", ifUser user (Render BacktestsPage) (Navigate "/login"));
        ("/backtests/:id", ifUser user (Render BacktestResultsPage) (Navigate "/login"));
        ("/products", ifUser user (Render ProductsPage) (Navigate "/login"));
        ("/products/new", ifUser user (Render ProductBuilderPage) (Navigate "/login"));
        ("/products/:id/edit",
         ifUser user (Render ProductBuilderPage) (Navigate "/login"));
        ("/products/:id", ifUser user (Render ProductDetailsPage) (Navigate "/login"));
        ("/portfolios", ifUser user (Render PortfoliosPage) (Navigate "/login"));
        ("/portfolios/new",
         ifUser user (Render PortfolioBuilderPage) (Navigate "/login"));
        ("/portfolios/:id/edit",
         ifUser user (Render PortfolioBuilderPage) (Navigate "/login"));
        ("/portfolios/:id", ifUser user (Render PortfolioDetailsPage) (Navigate "/login"));
        ("/trade-desk", ifUser user (Render TradeDeskPage) (Navigate "/login"));
        ("/analytics", ifUser user (Render AnalyticsPage) (Navigate "/login"));
        ("/market-data", ifUser user (Render MarketDataPage) (Navigate "/login"));
        ("/", Navigate (ifUser user "/dashboard" "/login")) ].

(** The element of the route declared with exactly the path [path].  For
    a location without parameters, such as the targets of the [Navigate]
    elements and the links of the dashboard, this is the route the router
    picks. *)
Definition elementAt (path : string) (routes : list (string * Element))
  : option Element :=
  snd <$> List.find (λ r, String.eqb (fst r) path) routes.

End App.

(** ** The module of [Dashboard] *)

Module DashboardPage.
Import Js AuthService.

(** The icon components the module cards refer to. *)
Inductive Icon := Activity | BarChart3 | Briefcase | Users | TrendingUp | Shield | Settings.

Record ModuleCard := mkModule {
  name : string;
  icon : Icon;
  description : string;
  path : option string
}.

Definition allModules : list ModuleCard :=
  [ mkModule "Strategy Builder" Activity
      "Create and manage quantitative strategies" (Some "/strategies");
    mkModule "Backtesting" BarChart3
      "Historical strategy simulation and analysis" (Some "/backtests");
    mkModule "Product Builder" Briefcase
      "Structured product creation and pricing" (Some "/products");
    mkModule "Portfolio Management" Users
      "Track and manage investment portfolios" (Some "/portfolios");
    mkModule "Trade Desk" TrendingUp
      "Order execution and trade management" (Some "/trade-desk");
    mkModule "Analytics & Reporting" Shield
      "Risk metrics and performance analysis" (Some "/analytics");
    mkModule "Market Data Service" Activity
      "Real-time prices and historical data" (Some "/market-data");
    mkModule "User Management" Settings
      "User administration and permissions" None ].

(** [Array.prototype.includes] on an array of strings. *)
Definition includes (l : list string) (x : string) : bool :=
  existsb (String.eqb x) l.

(** The own properties of the object literal [roleAccess], keyed by the
    values of [UserRole]. *)
Definition roleAccess (key : string) : option (list ModuleCard) :=
  if String.eqb key (roleName ADMIN) then Some allModules
  else if String.eqb key (roleName PORTFOLIO_MANAGER) then
    Some (List.filter (λ m, negb (String.eqb (name m) "User Management")) allModules)
  else if String.eqb key (roleName RESEARCHER) then
    Some (List.filter
            (λ m, negb (includes
                          ["Trade Desk"; "Portfolio Management"; "User Management"]
                          (name m)))
            allModules)
  else if String.eqb key (roleName CLIENT) then
    Some (List.filter
            (λ m, negb (includes ["Product Builder"; "User Management"] (name m)))
            allModules)
  else None.

(** The properties an object literal inherits from [Object.prototype];
    each of them is a function or an object, hence truthy. *)
Definition objectPrototype : list string :=
  [ "constructor"; "hasOwnProperty"; "isPrototypeOf"; "propertyIsEnumerable";
    "toLocaleString"; "toString"; "valueOf"; "__proto__";
    "__defineGetter__"; "__defineSetter__"; "__lookupGetter__"; "__lookupSetter__" ].

(** What [getModuleAccess] returns: an array of module cards, or, for a
    role that names an inherited property, that property, which is no
    array. *)
Inductive Access :=
| Modules (cards : list ModuleCard)
| Inherited (key : string).

(** [getModuleAccess]: [roleAccess[role] || []].  The role is the string
    of the user's profile; an array is truthy, also when empty, and a key
    that is neither defined nor inherited reads as [undefined]. *)
Definition getModuleAccess (role : string) : Access :=
  match roleAccess role with
  | Some cards => Modules cards
  | None => if includes objectPrototype role then Inherited role else Modules []
  end.

End DashboardPage.

(** ** The module of [StrategyBuilderPage]: the tag list of the form *)

Module StrategyBuilderPage.
Import Js.

(** [enum StrategyStatus] *)
Inductive StrategyStatus := DRAFT | ACTIVE | PAUSED | ARCHIVED.

(** [interface StrategyRequest]; an optional field is an [option]. *)
Record StrategyRequest := mkStrategyRequest {
  name : string;
  description : option string;
  symbol : string;
  timeframe : option string;
  configJson : string;
  status : option StrategyStatus;
  tags : option (list string)
}.

(** The [formData] and [tagInput] cells of the page. *)
Record Form := mkForm {
  formData : StrategyRequest;
  tagInput : string
}.

Definition set_tags (l : list string) (d : StrategyRequest) : StrategyRequest :=
  mkStrategyRequest (name d) (description d) (symbol d) (timeframe d)
    (configJson d) (status d) (Some l).

(** [tags || []] *)
Definition orEmpty (l : option (list string)) : list string :=
  match l with
  | Some l => l
  | None => []
  end.

Section Trim.
(** [String.prototype.trim] *)
Variable trim : string → string.

(** [addTag]: the guard reads the form of the current render, the update
    is applied to the same form. *)
Definition addTag (f : Form) : Form :=
  let t := trim (tagInput f) in
  if negb (String.eqb t EmptyString)
     && negb (match tags (formData f) with
              | Some l => bool_decide (t ∈ l)
              | None => false
              end)
  then mkForm (set_tags (orEmpty (tags (formData f)) ++ [t]) (formData f)) EmptyString
  else f.

(** [removeTag] *)
Definition removeTag (tagToRemove : string) (f : Form) : Form :=
  mkForm
    (set_tags
       (match tags (formData f) with
        | Some l => filter (λ tag, tag ≠ tagToRemove) l
        | None => []
        end)
       (formData f))
    (tagInput f).
End Trim.

End StrategyBuilderPage.

(** ** Backends to run the code against *)

Module Backends.
Import Js Axios.

(** A scripted backend: the outcomes of the successive requests, in
    order; once the script is used up the network is down. *)
Definition scripted (script : list Outcome) (c : Config) : list Outcome * Outcome :=
  match script with
  | [] => ([], NetworkError)
  | o :: rest => (rest, o)
  end.

Definition envelope (ok : bool) (d : option Json) : ApiResponse :=
  mkApiResponse ok EmptyString d.

Definition unauthorized : Outcome :=
  Answer (mkResponse 401 (envelope false None)).

Definition ok (d : option Json) : Outcome :=
  Answer (mkResponse 200 (envelope true d)).

Definition tokens (access refresh : string) : Json :=
  {[ "accessToken" := access; "refreshToken" := refresh ]}.

Definition browser (storage : gmap string string) (script : list Outcome)
  : World (list Outcome) :=
  mkWorld storage "/dashboard" script [].

Definition session (access refresh : string) : gmap string string :=
  {[ "accessToken" := access; "refreshToken" := refresh ]}.

(** A backend without state that gives every request the same outcome. *)
Definition constant (o : Outcome) (b : unit) (c : Config) : unit * Outcome :=
  (b, o).

Definition serverError : Outcome :=
  Answer (mkResponse 500 (envelope false None)).

End Backends.

(** ** Concrete runs *)

Module Scenarios.
Import Js Axios Backends.

Definition profile : Config := get "/auth/profile".
Definition portfolios : Config := get "/portfolios".
Definition logoutCall : Config := post "/auth/logout" None.

Definition r401 : AxiosResponse := mkResponse 401 (envelope false None).
Definition r200 (d : option Json) : AxiosResponse := mkResponse 200 (envelope true d).

(** HTTP 200 with an envelope that reports failure. *)
Definition refusedResponse : AxiosResponse :=
  mkResponse 200 (mkApiResponse false "Invalid refresh token" None).
Definition refused : Outcome := Answer refusedResponse.

(** A logged-in browser whose access token has expired; the backend
    answers 401, then grants the refresh, then answers 401 again. *)
Definition rejectedTwice : World (list Outcome) :=
  browser (session "old" "r1")
    [unauthorized; ok (Some (tokens "new" "r2")); unauthorized].

(** The same, but the retry is served. *)
Definition recovered : World (list Outcome) :=
  browser (session "old" "r1")
    [unauthorized; ok (Some (tokens "new" "r2")); ok None].

(** The backend answers the refresh exchange with HTTP 200 and
    [success: false]. *)
Definition refreshRefused : World (list Outcome) :=
  browser (session "old" "r1") [unauthorized; refused; unauthorized].

(** An access token but no refresh token in storage. *)
Definition noRefreshToken : World (list Outcome) :=
  browser {[ "accessToken" := "old" ]} [unauthorized].

(** A refresh token but no access token in storage. *)
Definition noAccessToken : World (list Outcome) :=
  browser {[ "refreshToken" := "r1" ]} [unauthorized; refused; ok None].

(** An empty access token in storage. *)
Definition emptyToken : gmap string string := {[ "accessToken" := EmptyString ]}.

(** Nothing in storage. *)
Definition loggedOut : World (list Outcome) := browser ∅ [].

(** Logged in, network down. *)
Definition offline : World (list Outcome) := browser (session "old" "r1") [].

(** Logged in, against a backend that fails every request with 500. *)
Definition failing : World unit := mkWorld (session "old" "r1") "/dashboard" tt [].


(** Logged in, against a backend that answers 401 twice. *)
Definition nesting : World (list Outcome) :=
  browser (session "old" "r1") (repeat unauthorized 2).

(** The provider once a user is signed in. *)
Definition signedIn : AuthContext.AuthState :=
  AuthContext.mkAuthState (Some {[ "id" := "7"; "username" := "ada" ]}) false.

End Scenarios.

(** ** Vocabulary of the statements below *)

Module Observe.
Import Js Axios.

(** The world once [c] has been put on the network and the backend has
    moved to [b]. *)
Definition sent {B} (c : Config) (b : B) (w : World B) : World B :=
  mkWorld (localStorage w) (href w) b (wire w ++ [(c, localStorage w)]).

(** How a request without response interceptors settles on outcome [o]. *)
Definition settle (c : Config) (o : Outcome) : AxiosResponse + Error :=
  match o with
  | Answer r =>
      if validateStatus (status r) then inl r else inr (AxiosError c (Some r))
  | NetworkError => inr (AxiosError c None)
  end.

Definition settled (c : Config) (o : Outcome) : Promise AxiosResponse :=
  match settle c o with
  | inl r => Fulfilled r
  | inr e => Rejected e
  end.

(** The requests of a log that went to the refresh endpoint. *)
Definition refreshCalls (log : list (Config * gmap string string))
  : list (Config * gmap string string) :=
  filter (λ e, url (fst e) = "/auth/refresh") log.

(** The bearer policy on one logged request: with a usable access token
    in storage the header carries it; without one, a request that is not
    a retry has no [Authorization] header. *)
Definition bearerPolicy (e : Config * gmap string string) : Prop :=
  (truthy (snd e !! "accessToken") = true →
   headers (fst e) !! "Authorization"
   = Some ("Bearer " +:+ template (snd e !! "accessToken")))
  ∧ (truthy (snd e !! "accessToken") = false → _retry (fst e) = false →
     headers (fst e) !! "Authorization" = None).

(** A backend that never answers a refresh exchange with 401. *)
Definition refreshNever401 {B} (serve : B → Config → B * Outcome) : Prop :=
  ∀ b c b' r, url c = "/auth/refresh" → serve b c = (b', Answer r) →
              status r ≠ 401%Z.

(** Both persisted tokens are gone. *)
Definition tokensCleared {B} (w : World B) : Prop :=
  localStorage w !! "accessToken" = None ∧ localStorage w !! "refreshToken" = None.

End Observe.

(** ** Further concrete inputs *)

Module Cases.
Import Js Axios Backends.

(** A signed-out browser whose request is answered 401. *)
Definition signedOut401 : World (list Outcome) := browser ∅ [unauthorized].

(** A registration form. *)
Definition newUser : Json :=
  {[ "username" := "ada"; "email" := "ada@quantcrux.com"; "password" := "secret";
     "firstName" := "Ada"; "lastName" := "Lovelace"; "role" := "CLIENT" ]}.

(** A profile as the backend returns it. *)
Definition adaProfile : Json :=
  {[ "id" := "7"; "username" := "ada"; "email" := "ada@quantcrux.com";
     "fullName" := "Ada Lovelace"; "role" := "RESEARCHER" ]}.

(** Logged in; the backend serves one request. *)
Definition served (d : option Json) : World (list Outcome) :=
  browser (session "old" "r1") [ok d].

(** Logged in; the backend answers with HTTP 200 and [success: false]. *)
Definition servedFailure : World (list Outcome) :=
  browser (session "old" "r1")
    [Answer (mkResponse 200 (mkApiResponse false "No such user" None))].

(** Logged in, with a key of another part of the application in storage;
    the backend answers 401 and is unreachable afterwards. *)
Definition themed : World (list Outcome) :=
  browser (<["theme" := "dark"]> (session "old" "r1")) [unauthorized].

(** A strategy form with two tags and a third one typed in. *)
Definition taggedForm : StrategyBuilderPage.Form :=
  StrategyBuilderPage.mkForm
    (StrategyBuilderPage.mkStrategyRequest "Mean reversion" None "AAPL" (Some "15m")
       "{}" (Some StrategyBuilderPage.DRAFT) (Some ["rsi"; "intraday"]))
    "momentum".

End Cases.


(** * Properties *)

Import Js Axios Observe.

(** ** Elementary facts about the pieces *)

Lemma truthy_Some (t : string) : t ≠ EmptyString → truthy (Some t) = true.
Proof.
  intros Hne. unfold truthy.
  destruct (String.eqb_spec t EmptyString); [contradiction | reflexivity].
Qed.

Lemma truthy_true (v : option string) :
  truthy v = true → ∃ t, v = Some t ∧ t ≠ EmptyString.
Proof.
  destruct v as [t|]; simpl; [|discriminate].
  destruct (String.eqb_spec t EmptyString); [discriminate|]. eauto.
Qed.

Lemma requestInterceptor_truthy (st : gmap string string) (c : Config) :
  truthy (st !! "accessToken") = true →
  AuthService.requestInterceptor st c
  = set_header "Authorization" ("Bearer " +:+ template (st !! "accessToken")) c.
Proof.
  intros H. unfold AuthService.requestInterceptor, getItem. by rewrite H.
Qed.

Lemma requestInterceptor_falsy (st : gmap string string) (c : Config) :
  truthy (st !! "accessToken") = false →
  AuthService.requestInterceptor st c = c.
Proof.
  intros H. unfold AuthService.requestInterceptor, getItem. by rewrite H.
Qed.

Lemma requestInterceptor_retry (st : gmap string string) (c : Config) :
  _retry (AuthService.requestInterceptor st c) = _retry c.
Proof.
  unfold AuthService.requestInterceptor. by destruct (truthy _).
Qed.

Lemma requestInterceptor_url (st : gmap string string) (c : Config) :
  url (AuthService.requestInterceptor st c) = url c.
Proof.
  unfold AuthService.requestInterceptor. by destruct (truthy _).
Qed.

Lemma requestInterceptor_same (st : gmap string string) (c : Config) :
  PortfolioService.requestInterceptor st c = AuthService.requestInterceptor st c.
Proof. reflexivity. Qed.

Lemma removeTokens_access {B} (w : World B) :
  localStorage (AuthService.removeTokens w) !! "accessToken" = None.
Proof.
  unfold AuthService.removeTokens, removeItem. simpl.
  rewrite lookup_delete_ne by done. apply lookup_delete_eq.
Qed.

Lemma removeTokens_refresh {B} (w : World B) :
  localStorage (AuthService.removeTokens w) !! "refreshToken" = None.
Proof.
  unfold AuthService.removeTokens, removeItem. simpl. apply lookup_delete_eq.
Qed.

Section ClientFacts.
Context {B : Type} (serve : B → Config → B * Outcome).

Lemma dispatch_eq (c : Config) (w : World B) (b : B) (o : Outcome) :
  serve (backend w) c = (b, o) →
  dispatch serve c w = (sent c b w, settle c o).
Proof.
  intros H. unfold dispatch, send, sent, settle. rewrite H.
  destruct o as [|r]; [reflexivity|]. by destruct (validateStatus _).
Qed.

Lemma dispatch_sent (c : Config) (w : World B) :
  ∃ b o, serve (backend w) c = (b, o) ∧ dispatch serve c w = (sent c b w, settle c o).
Proof.
  destruct (serve (backend w) c) as [b o] eqn:E.
  exists b, o. split; [done|]. by apply dispatch_eq.
Qed.

Lemma validateStatus_401 (r : AxiosResponse) :
  status r = 401%Z → validateStatus (status r) = false.
Proof. intros ->. reflexivity. Qed.

Lemma settle_401 (c : Config) (r : AxiosResponse) :
  status r = 401%Z → settle c (Answer r) = inr (AxiosError c (Some r)).
Proof. intros H. unfold settle. by rewrite validateStatus_401. Qed.

Lemma apiClient_S (fuel : nat) (c : Config) (w : World B) (b : B) (o : Outcome) :
  serve (backend w) (AuthService.requestInterceptor (localStorage w) c) = (b, o) →
  AuthService.apiClient serve (S fuel) c w
  = match settle (AuthService.requestInterceptor (localStorage w) c) o with
    | inl response =>
        Some (sent (AuthService.requestInterceptor (localStorage w) c) b w,
              Fulfilled response)
    | inr error =>
        AuthService.responseRejected (AuthService.apiClient serve fuel) error
          (sent (AuthService.requestInterceptor (localStorage w) c) b w)
    end.
Proof.
  intros H. simpl. rewrite (dispatch_eq _ _ _ _ H). by destruct (settle _ _).
Qed.

Lemma storeTokens_backend (r : AxiosResponse) (w : World B) :
  backend (AuthService.storeTokens r w) = backend w.
Proof.
  unfold AuthService.storeTokens.
  destruct (payload _); [destruct (success _)|]; reflexivity.
Qed.

Lemma storeTokens_href (r : AxiosResponse) (w : World B) :
  href (AuthService.storeTokens r w) = href w.
Proof.
  unfold AuthService.storeTokens.
  destruct (payload _); [destruct (success _)|]; reflexivity.
Qed.

Lemma storeTokens_wire (r : AxiosResponse) (w : World B) :
  wire (AuthService.storeTokens r w) = wire w.
Proof.
  unfold AuthService.storeTokens.
  destruct (payload _); [destruct (success _)|]; reflexivity.
Qed.

(** A request already marked as retried is never handed to the refresh:
    whatever the outcome, it settles after one trip to the backend. *)
Lemma apiClient_retried (fuel : nat) (c : Config) (w : World B) (b : B) (o : Outcome) :
  _retry c = true →
  serve (backend w) (AuthService.requestInterceptor (localStorage w) c) = (b, o) →
  AuthService.apiClient serve (S fuel) c w
  = Some (sent (AuthService.requestInterceptor (localStorage w) c) b w,
          settled (AuthService.requestInterceptor (localStorage w) c) o).
Proof.
  intros Hr H. rewrite (apiClient_S _ _ _ _ _ H). unfold settled, settle.
  destruct o as [|r]; [reflexivity|].
  destruct (validateStatus (status r)); [reflexivity|].
  unfold AuthService.responseRejected.
  rewrite requestInterceptor_retry, Hr. simpl negb.
  by rewrite andb_false_r.
Qed.

(** A failure that is not a 401 goes to the caller as it is. *)
Lemma apiClient_not_401 (fuel : nat) (c : Config) (w : World B) (b : B) (o : Outcome) :
  (∀ r, o = Answer r → status r ≠ 401%Z) →
  serve (backend w) (AuthService.requestInterceptor (localStorage w) c) = (b, o) →
  AuthService.apiClient serve (S fuel) c w
  = Some (sent (AuthService.requestInterceptor (localStorage w) c) b w,
          settled (AuthService.requestInterceptor (localStorage w) c) o).
Proof.
  intros Hne H. rewrite (apiClient_S _ _ _ _ _ H). unfold settled, settle.
  destruct o as [|r]; [reflexivity|].
  destruct (validateStatus (status r)); [reflexivity|].
  unfold AuthService.responseRejected.
  destruct (Z.eqb_spec (status r) 401) as [E|E]; [|reflexivity].
  by destruct (Hne r eq_refl).
Qed.

(** [authService.refreshToken] without a usable refresh token: the error
    is thrown before anything is sent. *)
Lemma refreshToken_missing (client : AuthService.Client) (w : World B) :
  truthy (AuthService.getRefreshToken w) = false →
  AuthService.refreshToken_via client w
  = Some (w, Rejected (JsError "No refresh token available")).
Proof.
  intros H. unfold AuthService.refreshToken_via.
  unfold AuthService.getRefreshToken in H. by rewrite H.
Qed.

(** The 401 branch of the response interceptor, spelled out. *)
Lemma apiClient_401 (fuel : nat) (c : Config) (w : World B) (b : B) (r : AxiosResponse) :
  _retry c = false →
  serve (backend w) (AuthService.requestInterceptor (localStorage w) c) = (b, Answer r) →
  status r = 401%Z →
  AuthService.apiClient serve (S fuel) c w
  = let c1 := AuthService.requestInterceptor (localStorage w) c in
    match AuthService.refreshToken serve fuel (sent c1 b w) with
    | None => None
    | Some (w1, Fulfilled _) =>
        AuthService.apiClient serve fuel
          (AuthService.retryRequest (localStorage w1) (set_retry true c1)) w1
    | Some (w1, Rejected refreshError) =>
        Some (AuthService.toLogin w1, Rejected refreshError)
    end.
Proof.
  intros Hr H H401. rewrite (apiClient_S _ _ _ _ _ H).
  rewrite settle_401 by done. unfold AuthService.responseRejected.
  rewrite H401, requestInterceptor_retry, Hr. reflexivity.
Qed.

(** The refresh exchange answered with a status axios accepts. *)
Lemma refreshToken_answered (fuel : nat) (w : World B) (b : B) (r : AxiosResponse) :
  truthy (AuthService.getRefreshToken w) = true →
  serve (backend w)
    (AuthService.requestInterceptor (localStorage w)
       (AuthService.refreshRequest (AuthService.getRefreshToken w))) = (b, Answer r) →
  validateStatus (status r) = true →
  AuthService.refreshToken serve (S fuel) w
  = Some (AuthService.storeTokens r
            (sent (AuthService.requestInterceptor (localStorage w)
                     (AuthService.refreshRequest (AuthService.getRefreshToken w))) b w),
          Fulfilled tt).
Proof.
  intros Ht H Hv. unfold AuthService.refreshToken, AuthService.refreshToken_via.
  unfold AuthService.getRefreshToken in *. rewrite Ht. simpl negb. cbv iota.
  rewrite (apiClient_S _ _ _ _ _ H). unfold settle. by rewrite Hv.
Qed.

(** One 401, a refresh that goes through, one retry: the whole run. *)
Lemma apiClient_refresh_retry
    (fuel : nat) (c : Config) (w : World B)
    (b1 b2 b3 : B) (r1 r2 : AxiosResponse) (o3 : Outcome) :
  let c1 := AuthService.requestInterceptor (localStorage w) c in
  let q := AuthService.requestInterceptor (localStorage w)
             (AuthService.refreshRequest (AuthService.getRefreshToken w)) in
  let w2 := AuthService.storeTokens r2 (sent q b2 (sent c1 b1 w)) in
  let c2 := AuthService.requestInterceptor (localStorage w2)
              (AuthService.retryRequest (localStorage w2) (set_retry true c1)) in
  _retry c = false →
  truthy (AuthService.getRefreshToken w) = true →
  serve (backend w) c1 = (b1, Answer r1) → status r1 = 401%Z →
  serve b1 q = (b2, Answer r2) → validateStatus (status r2) = true →
  serve b2 c2 = (b3, o3) →
  AuthService.apiClient serve (S (S fuel)) c w = Some (sent c2 b3 w2, settled c2 o3).
Proof.
  intros c1 q w2 c2 Hr Ht H1 H401 H2 Hv H3.
  rewrite (apiClient_401 _ _ _ _ _ Hr H1 H401). cbv zeta. fold c1.
  rewrite (refreshToken_answered fuel (sent c1 b1 w) b2 r2); try done.
  fold q. fold w2.
  rewrite (apiClient_retried fuel _ w2 b3 o3); try done.
  unfold w2. rewrite storeTokens_backend. exact H3.
Qed.

End ClientFacts.

(** ** The 401 handling of the auth service's client *)

Section AuthClient.
Context {B : Type} (serve : B → Config → B * Outcome).

Lemma retry_header (st : gmap string string) (c : Config) :
  AuthService.requestInterceptor st (AuthService.retryRequest st c)
  = set_header "Authorization" ("Bearer " +:+ template (st !! "accessToken")) c.
Proof.
  unfold AuthService.requestInterceptor, AuthService.retryRequest, getItem.
  destruct (truthy (st !! "accessToken")); [|reflexivity].
  unfold set_header. simpl. by rewrite insert_insert_eq.
Qed.

Lemma refreshRequest_url (st : gmap string string) (t : option string) :
  url (AuthService.requestInterceptor st (AuthService.refreshRequest t)) = "/auth/refresh".
Proof. by rewrite requestInterceptor_url. Qed.

Lemma refreshRequest_unmarked (st : gmap string string) (t : option string) :
  _retry (AuthService.requestInterceptor st (AuthService.refreshRequest t)) = false.
Proof. by rewrite requestInterceptor_retry. Qed.

(** C1 (as amended).  A request that is not yet marked and is answered
    401, while a refresh token is in storage and the refresh exchange is
    answered with an accepted status: the network sees exactly three
    requests, the original one, one refresh call, and one retry.  The retry
    is the original request as it was sent, marked [_retry], with the
    [Authorization] header built from the access token that storage holds
    after the refresh.  Whatever the outcome of the retry, the run ends
    there; on a second 401 the caller gets that error and nothing else is
    sent. *)
Theorem one_refresh_then_one_retry
    (fuel : nat) (c : Config) (w : World B)
    (b1 b2 b3 : B) (r1 r2 : AxiosResponse) (o3 : Outcome) :
  let c1 := AuthService.requestInterceptor (localStorage w) c in
  let q := AuthService.requestInterceptor (localStorage w)
             (AuthService.refreshRequest (AuthService.getRefreshToken w)) in
  let w2 := AuthService.storeTokens r2 (sent q b2 (sent c1 b1 w)) in
  let c2 := set_header "Authorization"
              ("Bearer " +:+ template (getItem "accessToken" (localStorage w2)))
              (set_retry true c1) in
  _retry c = false →
  truthy (AuthService.getRefreshToken w) = true →
  serve (backend w) c1 = (b1, Answer r1) → status r1 = 401%Z →
  serve b1 q = (b2, Answer r2) → validateStatus (status r2) = true →
  serve b2 c2 = (b3, o3) →
  ∃ w',
    AuthService.apiClient serve (S (S fuel)) c w = Some (w', settled c2 o3)
    ∧ wire w' = wire w ++ [(c1, localStorage w); (q, localStorage w);
                           (c2, localStorage w2)]
    ∧ url q = "/auth/refresh" ∧ _retry q = false
    ∧ _retry c2 = true
    ∧ (∀ r3, o3 = Answer r3 → status r3 = 401%Z →
       settled c2 o3 = Rejected (AxiosError c2 (Some r3))).
Proof.
  intros c1 q w2 c2 Hr Ht H1 H401 H2 Hv H3.
  assert (Hc2 : c2 = AuthService.requestInterceptor (localStorage w2)
                       (AuthService.retryRequest (localStorage w2) (set_retry true c1)))
    by (symmetry; apply retry_header).
  exists (sent c2 b3 w2). split; [|split; [|split; [|split; [|split]]]].
  - rewrite Hc2 in H3 |- *.
    exact (apiClient_refresh_retry serve fuel c w b1 b2 b3 r1 r2 o3 Hr Ht H1 H401 H2 Hv H3).
  - unfold sent at 1. cbn [wire]. unfold w2 at 1. rewrite storeTokens_wire.
    unfold sent. cbn [wire localStorage]. by rewrite <- !app_assoc.
  - apply refreshRequest_url.
  - apply refreshRequest_unmarked.
  - reflexivity.
  - intros r3 -> H3'. unfold settled. by rewrite settle_401.
Qed.

(** C4 (as amended).  A request is handed to refresh-and-retry at most
    once.  When the retry is answered 401 as well, the caller gets that
    second error; no further refresh is made, storage stays as the refresh
    left it (the tokens are not cleared) and the location is not changed. *)
Theorem second_401_goes_to_caller
    (fuel : nat) (c : Config) (w : World B)
    (b1 b2 b3 : B) (r1 r2 r3 : AxiosResponse) :
  let c1 := AuthService.requestInterceptor (localStorage w) c in
  let q := AuthService.requestInterceptor (localStorage w)
             (AuthService.refreshRequest (AuthService.getRefreshToken w)) in
  let w2 := AuthService.storeTokens r2 (sent q b2 (sent c1 b1 w)) in
  let c2 := set_header "Authorization"
              ("Bearer " +:+ template (getItem "accessToken" (localStorage w2)))
              (set_retry true c1) in
  _retry c = false →
  truthy (AuthService.getRefreshToken w) = true →
  serve (backend w) c1 = (b1, Answer r1) → status r1 = 401%Z →
  serve b1 q = (b2, Answer r2) → validateStatus (status r2) = true →
  serve b2 c2 = (b3, Answer r3) → status r3 = 401%Z →
  ∃ w',
    AuthService.apiClient serve (S (S fuel)) c w
    = Some (w', Rejected (AxiosError c2 (Some r3)))
    ∧ length (wire w') = length (wire w) + 3
    ∧ localStorage w' = localStorage (AuthService.storeTokens r2 w)
    ∧ href w' = href w.
Proof.
  intros c1 q w2 c2 Hr Ht H1 H401 H2 Hv H3 H401'.
  assert (Hc2 : c2 = AuthService.requestInterceptor (localStorage w2)
                       (AuthService.retryRequest (localStorage w2) (set_retry true c1)))
    by (symmetry; apply retry_header).
  exists (sent c2 b3 w2). split; [|split; [|split]].
  - rewrite Hc2 in H3 |- *.
    rewrite (apiClient_refresh_retry serve fuel c w b1 b2 b3 r1 r2 _ Hr Ht H1 H401 H2 Hv H3).
    unfold settled. by rewrite settle_401.
  - unfold sent at 1. cbn [wire]. unfold w2 at 1. rewrite storeTokens_wire.
    unfold sent. cbn [wire]. rewrite !length_app. simpl. lia.
  - unfold sent at 1. cbn [localStorage]. unfold w2, AuthService.storeTokens.
    destruct (payload _); [destruct (success _)|]; reflexivity.
  - unfold sent at 1. cbn [href]. unfold w2. by rewrite storeTokens_href.
Qed.

(** A refresh that rejects, for whatever reason: the [catch] block clears
    both tokens, sends the browser to the login page and hands the refresh
    error to the caller of the original request. *)
Lemma refresh_rejected_tears_down
    (fuel : nat) (c : Config) (w w1 : World B) (b : B) (r : AxiosResponse)
    (refreshError : Error) :
  let c1 := AuthService.requestInterceptor (localStorage w) c in
  _retry c = false →
  serve (backend w) c1 = (b, Answer r) → status r = 401%Z →
  AuthService.refreshToken serve fuel (sent c1 b w) = Some (w1, Rejected refreshError) →
  ∃ w',
    AuthService.apiClient serve (S fuel) c w = Some (w', Rejected refreshError)
    ∧ tokensCleared w' ∧ href w' = "/login" ∧ wire w' = wire w1.
Proof.
  intros c1 Hr H1 H401 Hrefresh.
  exists (AuthService.toLogin w1). split; [|split; [|split]].
  - rewrite (apiClient_401 serve _ _ _ _ _ Hr H1 H401). cbv zeta. fold c1.
    by rewrite Hrefresh.
  - split; [apply removeTokens_access | apply removeTokens_refresh].
  - reflexivity.
  - reflexivity.
Qed.

(** C5.  A request is answered 401 and storage holds no refresh token (or
    an empty one): [authService.refreshToken] throws at once, leaving the
    world as it found it, so nothing goes to the network; the interceptor
    then clears both tokens and redirects, and the caller gets the error of
    the refresh.  The original request is the only one on the wire. *)
Theorem no_refresh_token_no_network_call
    (fuel : nat) (c : Config) (w : World B) (b : B) (r : AxiosResponse) :
  let c1 := AuthService.requestInterceptor (localStorage w) c in
  _retry c = false →
  truthy (AuthService.getRefreshToken w) = false →
  serve (backend w) c1 = (b, Answer r) → status r = 401%Z →
  (∀ n w0, localStorage w0 = localStorage w →
     AuthService.refreshToken serve n w0
     = Some (w0, Rejected (JsError "No refresh token available")))
  ∧ ∃ w',
      AuthService.apiClient serve (S fuel) c w
      = Some (w', Rejected (JsError "No refresh token available"))
      ∧ wire w' = wire w ++ [(c1, localStorage w)]
      ∧ tokensCleared w'
      ∧ href w' = "/login".
Proof.
  intros c1 Hr Ht H1 H401.
  assert (Hmiss : ∀ n (w0 : World B), localStorage w0 = localStorage w →
            AuthService.refreshToken serve n w0
            = Some (w0, Rejected (JsError "No refresh token available"))).
  { intros n w0 Hst. apply refreshToken_missing.
    unfold AuthService.getRefreshToken in *. by rewrite Hst. }
  split; [exact Hmiss|].
  destruct (refresh_rejected_tears_down fuel c w (sent c1 b w) b r
              (JsError "No refresh token available") Hr H1 H401)
    as (w' & Heq & Hclr & Hhref & Hwire).
  { apply Hmiss. reflexivity. }
  exists w'. rewrite Hwire. done.
Qed.

End AuthClient.

(** ** When the client settles *)

Section Settling.
Context {B : Type} (serve : B → Config → B * Outcome).

Lemma refreshToken_of_client (fuel : nat) (w : World B) :
  truthy (AuthService.getRefreshToken w) = true →
  AuthService.refreshToken serve fuel w
  = match AuthService.apiClient serve fuel
            (AuthService.refreshRequest (AuthService.getRefreshToken w)) w with
    | None => None
    | Some (w1, Rejected e) => Some (w1, Rejected e)
    | Some (w1, Fulfilled response) =>
        Some (AuthService.storeTokens response w1, Fulfilled tt)
    end.
Proof.
  intros Ht. unfold AuthService.refreshToken, AuthService.refreshToken_via.
  unfold AuthService.getRefreshToken in *. by rewrite Ht.
Qed.



(** The log only grows, and the client leaves the bearer policy of the
    log intact. *)
Lemma toLogin_wire (w : World B) : wire (AuthService.toLogin w) = wire w.
Proof. reflexivity. Qed.

Lemma bearerPolicy_sent (c : Config) (st : gmap string string) :
  headers c !! "Authorization" = None ∨ _retry c = true →
  bearerPolicy (AuthService.requestInterceptor st c, st).
Proof.
  intros Hc. split; cbn [fst snd]; intros Ht.
  - rewrite requestInterceptor_truthy by done. apply lookup_insert_eq.
  - rewrite requestInterceptor_falsy by done. intros Hr.
    destruct Hc as [Hc|Hc]; [done|congruence].
Qed.

Lemma apiClient_bearerPolicy (fuel : nat) :
  ∀ (c : Config) (w w' : World B) (p : Promise AxiosResponse),
    headers c !! "Authorization" = None ∨ _retry c = true →
    AuthService.apiClient serve fuel c w = Some (w', p) →
    Forall bearerPolicy (wire w) → Forall bearerPolicy (wire w').
Proof.
  induction fuel as [|fuel IH]; intros c w w' p Hc Hrun Hlog; [discriminate|].
  destruct (serve (backend w) (AuthService.requestInterceptor (localStorage w) c))
    as [b o] eqn:Hs.
  rewrite (apiClient_S serve _ _ _ _ _ Hs) in Hrun.
  set (c1 := AuthService.requestInterceptor (localStorage w) c) in *.
  assert (Hlog1 : Forall bearerPolicy (wire (sent c1 b w))).
  { unfold sent. cbn [wire]. apply Forall_app. split; [done|].
    constructor; [|constructor]. by apply bearerPolicy_sent. }
  destruct (settle c1 o) as [resp|e]; [by injection Hrun as <- _|].
  unfold AuthService.responseRejected in Hrun.
  destruct e as [c0 [r|]|msg]; try by injection Hrun as <- _.
  destruct ((status r =? 401)%Z && negb (_retry c0)); [|by injection Hrun as <- _].
  unfold AuthService.refreshToken_via in Hrun.
  destruct (negb (truthy _)).
  { by injection Hrun as <- _. }
  match type of Hrun with
  | context [AuthService.apiClient serve fuel ?q ?w0] =>
      destruct (AuthService.apiClient serve fuel q w0) as [[w1 [resp|e]]|] eqn:Hq
  end; try discriminate.
  - apply IH in Hq; [|by left|done].
    eapply IH; [|exact Hrun|]; [by right|]. by rewrite storeTokens_wire.
  - apply IH in Hq; [|by left|done]. by injection Hrun as <- _.
Qed.

End Settling.

(** ** The bearer header *)

Section Bearer.
Context {B : Type} (serve : B → Config → B * Outcome).

(** C7 (as amended).  The request interceptor, the same in the auth and
    the portfolio module, sets [Authorization: Bearer <token>] when storage
    holds a non-empty access token, and returns the configuration as it
    got it when storage holds no access token or an empty one.  Hence on
    the wire: every request sent while a non-empty token is stored carries
    that token, and a request sent without one, other than a retry, has no
    [Authorization] header, provided the caller did not set one. *)
Theorem bearer_header_follows_storage :
  (∀ (st : gmap string string) (c : Config) (t : string),
     getItem "accessToken" st = Some t → t ≠ EmptyString →
     headers (AuthService.requestInterceptor st c) !! "Authorization"
     = Some ("Bearer " +:+ t)
     ∧ headers (PortfolioService.requestInterceptor st c) !! "Authorization"
       = Some ("Bearer " +:+ t))
  ∧ (∀ (st : gmap string string) (c : Config),
       truthy (getItem "accessToken" st) = false →
       AuthService.requestInterceptor st c = c
       ∧ PortfolioService.requestInterceptor st c = c)
  ∧ (∀ (fuel : nat) (c : Config) (w w' : World B) (p : Promise AxiosResponse),
       headers c !! "Authorization" = None →
       AuthService.apiClient serve fuel c w = Some (w', p) →
       Forall bearerPolicy (wire w) → Forall bearerPolicy (wire w'))
  ∧ (∀ (c : Config) (w : World B),
       headers c !! "Authorization" = None →
       Forall bearerPolicy (wire w) →
       Forall bearerPolicy (wire (fst (PortfolioService.apiClient serve c w)))).
Proof.
  split; [|split; [|split]].
  - intros st c t Ht Hne. unfold getItem in Ht.
    assert (H : headers (AuthService.requestInterceptor st c) !! "Authorization"
                = Some ("Bearer " +:+ t)).
    { rewrite requestInterceptor_truthy by (rewrite Ht; by apply truthy_Some).
      rewrite Ht. cbn [set_header headers template]. by rewrite lookup_insert_eq. }
    split; exact H.
  - intros st c Ht.
    assert (H : AuthService.requestInterceptor st c = c)
      by (by apply requestInterceptor_falsy).
    split; exact H.
  - intros fuel c w w' p Hc. apply apiClient_bearerPolicy. by left.
  - intros c w Hc Hlog. unfold PortfolioService.apiClient.
    change (PortfolioService.requestInterceptor (localStorage w) c)
      with (AuthService.requestInterceptor (localStorage w) c).
    destruct (dispatch_sent serve (AuthService.requestInterceptor (localStorage w) c) w)
      as (b & o & _ & ->).
    assert (Forall bearerPolicy
              (wire (sent (AuthService.requestInterceptor (localStorage w) c) b w))).
    { unfold sent. cbn [wire]. apply Forall_app. split; [done|].
      constructor; [|constructor]. apply bearerPolicy_sent. by left. }
    by destruct (settle _ o).
Qed.

(** C3 (as amended).  The portfolio module's client attaches the bearer
    token exactly as the auth module's client does, on every request.  It
    has no response interceptor: a request makes one trip to the backend
    and settles on the outcome of that trip, so a 401 goes to the caller
    with storage and location untouched, without refresh and without
    retry.  The two clients agree on every request whose answer is not a
    401, and on requests already marked as retried. *)
Theorem portfolio_client_only_attaches_token :
  (∀ (st : gmap string string) (c : Config),
     PortfolioService.requestInterceptor st c = AuthService.requestInterceptor st c)
  ∧ (∀ (c : Config) (w : World B) (b : B) (o : Outcome),
       let c1 := PortfolioService.requestInterceptor (localStorage w) c in
       serve (backend w) c1 = (b, o) →
       PortfolioService.apiClient serve c w = (sent c1 b w, settled c1 o))
  ∧ (∀ (c : Config) (w : World B) (b : B) (r : AxiosResponse),
       let c1 := PortfolioService.requestInterceptor (localStorage w) c in
       serve (backend w) c1 = (b, Answer r) → status r = 401%Z →
       PortfolioService.apiClient serve c w
       = (sent c1 b w, Rejected (AxiosError c1 (Some r))))
  ∧ (∀ (fuel : nat) (c : Config) (w : World B) (b : B) (o : Outcome),
       let c1 := PortfolioService.requestInterceptor (localStorage w) c in
       serve (backend w) c1 = (b, o) →
       _retry c = true ∨ (∀ r, o = Answer r → status r ≠ 401%Z) →
       AuthService.apiClient serve (S fuel) c w
       = Some (PortfolioService.apiClient serve c w)).
Proof.
  assert (Hone : ∀ (c : Config) (w : World B) (b : B) (o : Outcome),
            serve (backend w) (PortfolioService.requestInterceptor (localStorage w) c)
            = (b, o) →
            PortfolioService.apiClient serve c w
            = (sent (PortfolioService.requestInterceptor (localStorage w) c) b w,
               settled (PortfolioService.requestInterceptor (localStorage w) c) o)).
  { intros c w b o Hs. unfold PortfolioService.apiClient, settled.
    rewrite (dispatch_eq serve _ _ _ _ Hs). by destruct (settle _ o). }
  split; [|split; [|split]].
  - intros st c. reflexivity.
  - exact Hone.
  - intros c w b r c1 Hs H401. rewrite (Hone c w b (Answer r) Hs).
    unfold settled. by rewrite settle_401.
  - intros fuel c w b o c1 Hs Hcase. rewrite (Hone c w b o Hs).
    destruct Hcase as [Hr|Hne].
    + exact (apiClient_retried serve fuel c w b o Hr Hs).
    + exact (apiClient_not_401 serve fuel c w b o Hne Hs).
Qed.

End Bearer.

(** ** The session holder *)

Section Session.
Context {B : Type} (serve : B → Config → B * Outcome).


(** C8.  At startup without an access token in storage (or with an empty
    one) the session resolves to anonymous, [user] null and [loading]
    false, and the world is left as it was: nothing is sent, the profile
    endpoint is not called. *)
Theorem startup_without_token_is_anonymous (fuel : nat) (w : World B) :
  truthy (AuthService.getAccessToken w) = false →
  AuthContext.initializeAuth serve fuel w AuthContext.initialState
  = Some (w, AuthContext.mkAuthState None false).
Proof.
  intros Ht. unfold AuthContext.initializeAuth. by rewrite Ht.
Qed.

(** C9.  At startup with an access token in storage, when the profile
    fetch is rejected (by the network, by the backend, by a refresh that
    failed, or by an envelope without success), both tokens are removed and
    the session resolves to anonymous, [user] null and [loading] false. *)
Theorem startup_profile_failure_clears_tokens
    (fuel : nat) (w w1 : World B) (e : Error) :
  truthy (AuthService.getAccessToken w) = true →
  AuthService.getProfile serve fuel w = Some (w1, Rejected e) →
  ∃ w',
    AuthContext.initializeAuth serve fuel w AuthContext.initialState
    = Some (w', AuthContext.mkAuthState None false)
    ∧ tokensCleared w'
    ∧ wire w' = wire w1.
Proof.
  intros Ht Hp. exists (AuthService.removeTokens w1).
  split; [|split].
  - unfold AuthContext.initializeAuth. by rewrite Ht, Hp.
  - split; [apply removeTokens_access | apply removeTokens_refresh].
  - reflexivity.
Qed.

(** The profile fetch does fail, with the world it leaves behind, whenever
    the request to the profile endpoint fails for a reason other than a
    401. *)
Lemma getProfile_rejected (fuel : nat) (w : World B) (b : B) (o : Outcome) :
  let c1 := AuthService.requestInterceptor (localStorage w) (get "/auth/profile") in
  serve (backend w) c1 = (b, o) →
  (∀ r, o = Answer r → status r ≠ 401%Z ∧ validateStatus (status r) = false) →
  ∃ e, AuthService.getProfile serve (S fuel) w = Some (sent c1 b w, Rejected e).
Proof.
  intros c1 Hs Ho. unfold AuthService.getProfile.
  rewrite (apiClient_not_401 serve fuel _ w b o);
    [|intros r Hr; by destruct (Ho r Hr)|done].
  fold c1. unfold settled, settle. destruct o as [|r]; [eauto|].
  destruct (Ho r eq_refl) as [_ ->]. eauto.
Qed.

End Session.

(** ** Refreshing the refresh *)

Section NestedRefresh.
Import Backends.

(** Against a script of [k] answers 401, [authService.refreshToken] puts
    [k + 1] refresh requests on the network before it gives up. *)
Lemma refreshToken_nests (k : nat) :
  ∀ (fuel : nat) (w : World (list Outcome)),
    backend w = repeat unauthorized k →
    truthy (AuthService.getRefreshToken w) = true →
    k < fuel →
    ∃ w' e,
      AuthService.refreshToken scripted fuel w = Some (w', Rejected e)
      ∧ wire w'
        = wire w
          ++ repeat (AuthService.requestInterceptor (localStorage w)
                       (AuthService.refreshRequest (AuthService.getRefreshToken w)),
                     localStorage w) (S k).
Proof.
  induction k as [|k IH]; intros fuel w Hb Ht Hlt;
    (destruct fuel as [|fuel]; [lia|]);
    rewrite refreshToken_of_client by done;
    set (q := AuthService.refreshRequest _);
    set (q1 := AuthService.requestInterceptor (localStorage w) q).
  - assert (Hs : scripted (backend w) q1 = ([], NetworkError)) by (by rewrite Hb).
    rewrite (apiClient_not_401 scripted fuel q w [] NetworkError); [|done|exact Hs].
    eexists _, _. split; [reflexivity|]. reflexivity.
  - assert (Hs : scripted (backend w) q1 = (repeat unauthorized k, unauthorized))
      by (by rewrite Hb).
    rewrite (apiClient_401 scripted fuel q w _ _ eq_refl Hs eq_refl). cbv zeta.
    fold q1.
    destruct (IH fuel (sent q1 (repeat unauthorized k) w)) as (w1 & e & -> & Hw);
      [reflexivity|exact Ht|lia|].
    eexists _, _. split; [reflexivity|].
    rewrite toLogin_wire, Hw. unfold sent. cbn [wire localStorage].
    rewrite <- app_assoc. reflexivity.
Qed.

(** C10.  The refresh request is built without a [_retry] mark and goes
    through the intercepted client.  When it is answered 401 the response
    interceptor therefore calls [authService.refreshToken] again, from the
    world the first refresh request left, and the outcome of the outer
    refresh is that of the nested one: it is not rejected on the spot.
    Nothing bounds the nesting: against a backend that answers 401 [n + 1]
    times and is unreachable afterwards, one unmarked request puts [n + 1]
    refresh requests on the network, none of them marked, before the run
    ends. *)
Theorem refresh_request_is_not_guarded :
  (∀ (B : Type) (serve : B → Config → B * Outcome)
     (fuel : nat) (w : World B) (b : B) (r : AxiosResponse),
     let q := AuthService.requestInterceptor (localStorage w)
                (AuthService.refreshRequest (AuthService.getRefreshToken w)) in
     truthy (AuthService.getRefreshToken w) = true →
     serve (backend w) q = (b, Answer r) → status r = 401%Z →
     _retry q = false
     ∧ AuthService.refreshToken serve (S fuel) w
       = match AuthService.refreshToken serve fuel (sent q b w) with
         | None => None
         | Some (w1, Rejected refreshError) =>
             Some (AuthService.toLogin w1, Rejected refreshError)
         | Some (w1, Fulfilled _) =>
             match AuthService.apiClient serve fuel
                     (AuthService.retryRequest (localStorage w1) (set_retry true q)) w1
             with
             | None => None
             | Some (w2, Rejected e) => Some (w2, Rejected e)
             | Some (w2, Fulfilled response) =>
                 Some (AuthService.storeTokens response w2, Fulfilled tt)
             end
         end)
  ∧ (∀ (n fuel : nat) (c : Config) (w : World (list Outcome)),
       let c1 := AuthService.requestInterceptor (localStorage w) c in
       let q := AuthService.requestInterceptor (localStorage w)
                  (AuthService.refreshRequest (AuthService.getRefreshToken w)) in
       _retry c = false →
       truthy (AuthService.getRefreshToken w) = true →
       backend w = repeat unauthorized (S n) →
       S n < fuel →
       ∃ w' e,
         AuthService.apiClient scripted fuel c w = Some (w', Rejected e)
         ∧ wire w' = wire w ++ (c1, localStorage w) :: repeat (q, localStorage w) (S n)
         ∧ url q = "/auth/refresh" ∧ _retry q = false).
Proof.
  split.
  - intros B serve fuel w b r q Ht Hs H401.
    split; [apply refreshRequest_unmarked|].
    rewrite refreshToken_of_client by done.
    rewrite (apiClient_401 serve fuel
               (AuthService.refreshRequest (AuthService.getRefreshToken w)) w b r
               eq_refl Hs H401).
    cbv zeta. fold q.
    destruct (AuthService.refreshToken serve fuel (sent q b w)) as [[w1 [[]|e]]|];
      reflexivity.
  - intros n fuel c w c1 q Hr Ht Hb Hfuel.
    destruct fuel as [|fuel]; [lia|].
    assert (Hs : scripted (backend w) c1 = (repeat unauthorized n, unauthorized))
      by (by rewrite Hb).
    rewrite (apiClient_401 scripted _ c w _ _ Hr Hs eq_refl). cbv zeta. fold c1.
    destruct (refreshToken_nests n fuel (sent c1 (repeat unauthorized n) w))
      as (w1 & e & -> & Hw); [reflexivity|exact Ht|lia|].
    eexists _, _. split; [reflexivity|]. split; [|split].
    + rewrite toLogin_wire, Hw. unfold sent. cbn [wire localStorage].
      rewrite <- app_assoc. reflexivity.
    + apply refreshRequest_url.
    + apply refreshRequest_unmarked.
Qed.

End NestedRefresh.

(** ** The code on concrete runs *)

Section Runs.
Import Backends Scenarios.

(** C1: the claim as stated fails.  The request is answered 401 and is
    not marked, but storage holds no refresh token: no refresh call is
    issued and the request is not retried; it is the only request sent. *)
Lemma unmarked_401_without_refresh_or_retry :
  _retry profile = false
  ∧ scripted (backend noRefreshToken)
      (AuthService.requestInterceptor (localStorage noRefreshToken) profile)
    = ([], unauthorized)
  ∧ ∃ w',
      AuthService.apiClient scripted 3 profile noRefreshToken
      = Some (w', Rejected (JsError "No refresh token available"))
      ∧ refreshCalls (wire w') = []
      ∧ map (λ e, (url (fst e), _retry (fst e))) (wire w') = [("/auth/profile", false)].
Proof.
  split; [reflexivity|]. split; [reflexivity|].
  eexists. split; [vm_compute; reflexivity|]. split; reflexivity.
Qed.

(** The run of C1 on a scripted backend: 401, refresh granted, retry served. *)
Lemma one_refresh_then_one_retry_witness :
  ∃ w',
    AuthService.apiClient scripted 2 profile recovered
    = Some (w', Fulfilled (r200 None))
    ∧ map (λ e, (url (fst e), _retry (fst e),
                 headers (fst e) !! "Authorization")) (wire w')
      = [("/auth/profile", false, Some "Bearer old");
         ("/auth/refresh", false, Some "Bearer old");
         ("/auth/profile", true, Some "Bearer new")].
Proof.
  destruct (one_refresh_then_one_retry scripted 0 profile recovered
              [ok (Some (tokens "new" "r2")); ok None] [ok None] []
              r401 (r200 (Some (tokens "new" "r2"))) (ok None))
    as (w' & Hrun & Hwire & _); try reflexivity.
  exists w'. split; [exact Hrun|]. rewrite Hwire. vm_compute. reflexivity.
Defined.

(** C2: the backend answers the refresh exchange with HTTP 200 and an
    envelope [success: false].  [authService.refreshToken] resolves: the
    tokens stay in storage, the browser stays where it is, the original
    request is sent again with the old token, and the caller receives the
    401 of that retry, not an error of the refresh. *)
Lemma refused_refresh_is_taken_for_success :
  ∃ w' c,
    AuthService.apiClient scripted 3 profile refreshRefused
    = Some (w', Rejected (AxiosError c (Some r401)))
    ∧ localStorage w' = session "old" "r1"
    ∧ href w' = "/dashboard"
    ∧ map (λ e, (url (fst e), _retry (fst e),
                 headers (fst e) !! "Authorization")) (wire w')
      = [("/auth/profile", false, Some "Bearer old");
         ("/auth/refresh", false, Some "Bearer old");
         ("/auth/profile", true, Some "Bearer old")].
Proof.
  eexists _, _. split; [vm_compute; reflexivity|].
  split; [|split]; vm_compute; reflexivity.
Qed.

(** C3: the claim as stated fails.  Against the same backend, from the
    same browser, the auth module's client refreshes, retries and is
    served, while the portfolio module's client hands the 401 to its
    caller after a single request. *)
Lemma portfolio_client_differs_on_401 :
  ∃ w1 w2 c,
    AuthService.apiClient scripted 3 portfolios recovered
    = Some (w1, Fulfilled (r200 None))
    ∧ PortfolioService.apiClient scripted portfolios recovered
      = (w2, Rejected (AxiosError c (Some r401)))
    ∧ map (λ e, url (fst e)) (wire w1) = ["/portfolios"; "/auth/refresh"; "/portfolios"]
    ∧ map (λ e, url (fst e)) (wire w2) = ["/portfolios"]
    ∧ localStorage w1 = session "new" "r2"
    ∧ localStorage w2 = session "old" "r1".
Proof.
  eexists _, _, _. split; [vm_compute; reflexivity|].
  split; [vm_compute; reflexivity|].
  repeat split; vm_compute; reflexivity.
Qed.

(** The portfolio client on a 401: one request, rejected to the caller. *)
Lemma portfolio_client_only_attaches_token_witness :
  PortfolioService.apiClient scripted portfolios recovered
  = (sent (PortfolioService.requestInterceptor (localStorage recovered) portfolios)
       [ok (Some (tokens "new" "r2")); ok None] recovered,
     Rejected
       (AxiosError
          (PortfolioService.requestInterceptor (localStorage recovered) portfolios)
          (Some r401))).
Proof.
  destruct (portfolio_client_only_attaches_token scripted) as (_ & _ & H & _).
  apply (H portfolios recovered); reflexivity.
Defined.

(** C4: the claim as stated fails.  The retry is answered 401 as well;
    the caller gets that error, the tokens the refresh stored are still in
    storage and the browser has not been sent to the login page. *)
Lemma second_401_keeps_the_session :
  ∃ w' c,
    AuthService.apiClient scripted 3 profile rejectedTwice
    = Some (w', Rejected (AxiosError c (Some r401)))
    ∧ _retry c = true
    ∧ localStorage w' !! "accessToken" = Some "new"
    ∧ localStorage w' !! "refreshToken" = Some "r2"
    ∧ href w' = "/dashboard"
    ∧ href w' ≠ "/login".
Proof.
  eexists _, _. split; [vm_compute; reflexivity|].
  repeat split; try (vm_compute; reflexivity). discriminate.
Qed.

(** The run of C4 on a scripted backend: 401, refresh granted, 401 again. *)
Lemma second_401_goes_to_caller_witness :
  ∃ w' c,
    AuthService.apiClient scripted 2 profile rejectedTwice
    = Some (w', Rejected (AxiosError c (Some r401)))
    ∧ length (wire w') = 3
    ∧ localStorage w' = session "new" "r2"
    ∧ href w' = "/dashboard".
Proof.
  destruct (second_401_goes_to_caller scripted 0 profile rejectedTwice
              [ok (Some (tokens "new" "r2")); unauthorized] [unauthorized] []
              r401 (r200 (Some (tokens "new" "r2"))) r401)
    as (w' & Hrun & Hlen & Hst & Hhref); try reflexivity.
  exists w'. eexists. split; [exact Hrun|].
  split; [exact Hlen|]. split; [|exact Hhref].
  rewrite Hst. vm_compute. reflexivity.
Defined.

(** The run of C5: an access token only, the request answered 401. *)
Lemma no_refresh_token_no_network_call_witness :
  ∃ w',
    AuthService.apiClient scripted 1 profile noRefreshToken
    = Some (w', Rejected (JsError "No refresh token available"))
    ∧ length (wire w') = 1
    ∧ tokensCleared w'
    ∧ href w' = "/login".
Proof.
  destruct (no_refresh_token_no_network_call scripted 0 profile noRefreshToken [] r401)
    as (_ & w' & Hrun & Hwire & Hclr & Hhref); try reflexivity.
  exists w'. split; [exact Hrun|]. split; [by rewrite Hwire|]. by split.
Defined.

End Runs.

Section MoreRuns.
Import Backends Scenarios.

Lemma constant_serverError_never_401 : refreshNever401 (constant serverError).
Proof.
  intros b c b' r _ Hs. unfold constant, serverError in Hs.
  injection Hs as _ <-. discriminate.
Qed.


(** C7: the claim as stated fails, in two ways.  With the empty string
    stored under [accessToken] the request leaves without an
    [Authorization] header.  And with no access token in storage, after a
    refresh that resolved without storing one, the retry leaves with the
    header [Bearer null]. *)
Lemma bearer_header_not_as_stated :
  (getItem "accessToken" emptyToken = Some EmptyString
   ∧ headers (AuthService.requestInterceptor emptyToken portfolios) !! "Authorization"
     = None
   ∧ headers (PortfolioService.requestInterceptor emptyToken portfolios)
       !! "Authorization" = None)
  ∧ ∃ w' p c st,
      AuthService.apiClient scripted 3 logoutCall noAccessToken = Some (w', p)
      ∧ wire w' !! 2 = Some (c, st)
      ∧ getItem "accessToken" st = None
      ∧ headers c !! "Authorization" = Some "Bearer null".
Proof.
  split; [repeat split; vm_compute; reflexivity|].
  eexists _, _, _, _. split; [vm_compute; reflexivity|].
  split; [vm_compute; reflexivity|]. split; vm_compute; reflexivity.
Qed.

(** The header both interceptors build from a stored token. *)
Lemma bearer_header_follows_storage_witness :
  headers (AuthService.requestInterceptor (session "old" "r1") portfolios)
    !! "Authorization" = Some "Bearer old"
  ∧ headers (PortfolioService.requestInterceptor (session "old" "r1") portfolios)
      !! "Authorization" = Some "Bearer old".
Proof.
  destruct (bearer_header_follows_storage scripted) as (H & _).
  apply (H (session "old" "r1") portfolios "old"); [reflexivity|discriminate].
Defined.

(** Startup with empty storage. *)
Lemma startup_without_token_is_anonymous_witness :
  truthy (AuthService.getAccessToken loggedOut) = false
  ∧ AuthContext.initializeAuth scripted 0 loggedOut AuthContext.initialState
    = Some (loggedOut, AuthContext.mkAuthState None false).
Proof.
  split; [reflexivity|].
  apply (startup_without_token_is_anonymous scripted 0 loggedOut). reflexivity.
Defined.

(** Startup with a stored token while the network is down. *)
Lemma startup_profile_failure_clears_tokens_witness :
  truthy (AuthService.getAccessToken offline) = true
  ∧ ∃ w',
      AuthContext.initializeAuth scripted 1 offline AuthContext.initialState
      = Some (w', AuthContext.mkAuthState None false)
      ∧ tokensCleared w'.
Proof.
  split; [reflexivity|].
  edestruct (startup_profile_failure_clears_tokens scripted 1 offline)
    as (w' & Hrun & Hclr & _); [reflexivity|vm_compute; reflexivity|].
  exists w'. by split.
Defined.

(** Two answers 401: the original request, then two refresh requests. *)
Lemma refresh_request_is_not_guarded_witness :
  ∃ w' e,
    AuthService.apiClient scripted 3 profile nesting = Some (w', Rejected e)
    ∧ map (λ e, (url (fst e), _retry (fst e))) (wire w')
      = [("/auth/profile", false); ("/auth/refresh", false); ("/auth/refresh", false)].
Proof.
  destruct refresh_request_is_not_guarded as (_ & H).
  destruct (H 1 3 profile nesting) as (w' & e & Hrun & Hwire & _);
    try reflexivity; [lia|].
  exists w', e. split; [exact Hrun|]. rewrite Hwire. vm_compute. reflexivity.
Defined.

End MoreRuns.

(** ** A backend that always answers 401 *)

Section Always401.
Context {B : Type} (serve : B → Config → B * Outcome).
Hypothesis always401 : ∀ b c, ∃ b' r, serve b c = (b', Answer r) ∧ status r = 401%Z.



End Always401.

(** * Further properties of the code *)

(** ** What the auth client leaves alone *)

Section Frame.
Context {B : Type} (serve : B → Config → B * Outcome).

Lemma storeTokens_other (r : AxiosResponse) (w : World B) (k : string) :
  k ≠ "accessToken" → k ≠ "refreshToken" →
  localStorage (AuthService.storeTokens r w) !! k = localStorage w !! k.
Proof.
  intros Ha Hr. unfold AuthService.storeTokens.
  destruct (payload _); [destruct (success _)|]; try reflexivity.
  cbn [localStorage set_localStorage]. unfold setItem.
  by rewrite !lookup_insert_ne.
Qed.

Lemma toLogin_other (w : World B) (k : string) :
  k ≠ "accessToken" → k ≠ "refreshToken" →
  localStorage (AuthService.toLogin w) !! k = localStorage w !! k.
Proof.
  intros Ha Hr. unfold AuthService.toLogin, AuthService.removeTokens, removeItem.
  cbn [localStorage set_localStorage set_href]. by rewrite !lookup_delete_ne.
Qed.

Lemma toLogin_cleared (w : World B) : tokensCleared (AuthService.toLogin w).
Proof.
  split; [apply (removeTokens_access w) | apply (removeTokens_refresh w)].
Qed.

(** X1.  Whatever the backend does, a call of the auth service's client
    that settles has touched no key of [localStorage] other than
    [accessToken] and [refreshToken]. *)
Theorem client_touches_only_the_tokens (fuel : nat) :
  ∀ (c : Config) (w w' : World B) (p : Promise AxiosResponse) (k : string),
    k ≠ "accessToken" → k ≠ "refreshToken" →
    AuthService.apiClient serve fuel c w = Some (w', p) →
    localStorage w' !! k = localStorage w !! k.
Proof.
  induction fuel as [|fuel IH]; intros c w w' p k Ha Hr Hrun; [discriminate|].
  destruct (serve (backend w) (AuthService.requestInterceptor (localStorage w) c))
    as [b o] eqn:Hs.
  rewrite (apiClient_S serve _ _ _ _ _ Hs) in Hrun.
  set (c1 := AuthService.requestInterceptor (localStorage w) c) in *.
  destruct (settle c1 o) as [resp|e]; [by injection Hrun as <- _|].
  unfold AuthService.responseRejected in Hrun.
  destruct e as [c0 [r|]|msg]; try by injection Hrun as <- _.
  destruct ((status r =? 401)%Z && negb (_retry c0)); [|by injection Hrun as <- _].
  unfold AuthService.refreshToken_via in Hrun.
  destruct (negb (truthy _)).
  { injection Hrun as <- _. by rewrite toLogin_other. }
  match type of Hrun with
  | context [AuthService.apiClient serve fuel ?q ?w0] =>
      destruct (AuthService.apiClient serve fuel q w0) as [[w1 [resp|e]]|] eqn:Hq
  end; try discriminate.
  - apply (IH _ _ _ _ k Ha Hr) in Hq. apply (IH _ _ _ _ k Ha Hr) in Hrun.
    rewrite Hrun, storeTokens_other by done. exact Hq.
  - apply (IH _ _ _ _ k Ha Hr) in Hq. injection Hrun as <- _.
    rewrite toLogin_other by done. exact Hq.
Qed.

Lemma client_redirect_invariant (fuel : nat) :
  ∀ (c : Config) (w w' : World B) (p : Promise AxiosResponse),
    AuthService.apiClient serve fuel c w = Some (w', p) →
    href w' = href w
    ∨ (tokensCleared w' ∧ href w' = "/login" ∧ ∃ e, p = Rejected e).
Proof.
  induction fuel as [|fuel IH]; intros c w w' p Hrun; [discriminate|].
  destruct (serve (backend w) (AuthService.requestInterceptor (localStorage w) c))
    as [b o] eqn:Hs.
  rewrite (apiClient_S serve _ _ _ _ _ Hs) in Hrun.
  set (c1 := AuthService.requestInterceptor (localStorage w) c) in *.
  destruct (settle c1 o) as [resp|e]; [injection Hrun as <- _; by left|].
  unfold AuthService.responseRejected in Hrun.
  destruct e as [c0 [r|]|msg]; try (injection Hrun as <- _; by left).
  destruct ((status r =? 401)%Z && negb (_retry c0));
    [|injection Hrun as <- _; by left].
  unfold AuthService.refreshToken_via in Hrun.
  destruct (negb (truthy _)).
  { injection Hrun as <- <-. right. split; [apply toLogin_cleared|]. eauto. }
  match type of Hrun with
  | context [AuthService.apiClient serve fuel ?q ?w0] =>
      destruct (AuthService.apiClient serve fuel q w0) as [[w1 [resp|e]]|] eqn:Hq
  end; try discriminate.
  - apply IH in Hq. destruct Hq as [Hq|(_ & _ & e & He)]; [|discriminate].
    apply IH in Hrun. rewrite storeTokens_href, Hq in Hrun. exact Hrun.
  - injection Hrun as <- <-. right. split; [apply toLogin_cleared|]. eauto.
Qed.

(** X2.  A call of the auth service's client that is fulfilled has left
    the location alone.  A call after which the location differs has been
    rejected, the location is the login page and both tokens are gone. *)
Theorem client_redirects_only_with_teardown
    (fuel : nat) (c : Config) (w w' : World B) (p : Promise AxiosResponse) :
  AuthService.apiClient serve fuel c w = Some (w', p) →
  (∀ r, p = Fulfilled r → href w' = href w)
  ∧ (href w' ≠ href w →
     href w' = "/login" ∧ tokensCleared w' ∧ ∃ e, p = Rejected e).
Proof.
  intros Hrun. destruct (client_redirect_invariant fuel c w w' p Hrun)
    as [Hsame|(Hclr & Hlogin & e & ->)].
  - split; [done|]. intros Hne. by destruct Hne.
  - split; [discriminate|]. intros _. eauto.
Qed.

(** X3.  With a backend that never answers a refresh exchange with 401, a
    call of the auth service's client that settles has put at least one
    and at most three requests on the network, the first of them the
    request it was called with. *)
Theorem client_sends_at_most_three
    (fuel : nat) (c : Config) (w w' : World B) (p : Promise AxiosResponse) :
  refreshNever401 serve →
  AuthService.apiClient serve fuel c w = Some (w', p) →
  ∃ rest,
    wire w'
    = wire w ++ (AuthService.requestInterceptor (localStorage w) c, localStorage w) :: rest
    ∧ length rest ≤ 2.
Proof.
  intros Hno Hrun. destruct fuel as [|fuel]; [discriminate|].
  destruct (serve (backend w) (AuthService.requestInterceptor (localStorage w) c))
    as [b o] eqn:Hc.
  set (c1 := AuthService.requestInterceptor (localStorage w) c) in *.
  assert (Hone : ∀ x, Some (sent c1 b w, x) = Some (w', p) →
            ∃ rest, wire w' = wire w ++ (c1, localStorage w) :: rest ∧ length rest ≤ 2).
  { intros x [= <- _]. exists []. split; [reflexivity|simpl; lia]. }
  destruct (_retry c) eqn:Hr.
  { rewrite (apiClient_retried serve _ c w b o Hr Hc) in Hrun. eauto. }
  destruct o as [|r].
  { rewrite (apiClient_not_401 serve _ c w b NetworkError) in Hrun; [eauto|done|done]. }
  destruct (Z.eq_dec (status r) 401%Z) as [H401|Hne].
  2:{ rewrite (apiClient_not_401 serve _ c w b (Answer r)) in Hrun; [eauto| |done].
      by intros r' [= <-]. }
  rewrite (apiClient_401 serve _ c w b r Hr Hc H401) in Hrun. cbv zeta in Hrun.
  fold c1 in Hrun.
  destruct (truthy (AuthService.getRefreshToken (sent c1 b w))) eqn:Ht.
  2:{ unfold AuthService.refreshToken in Hrun.
      rewrite refreshToken_missing in Hrun by done.
      injection Hrun as <- _. exists []. split; [reflexivity|simpl; lia]. }
  rewrite refreshToken_of_client in Hrun by done.
  destruct fuel as [|fuel]; [discriminate|].
  set (q := AuthService.refreshRequest _) in Hrun.
  destruct (serve (backend (sent c1 b w))
              (AuthService.requestInterceptor (localStorage (sent c1 b w)) q))
    as [b2 o2] eqn:Hq.
  rewrite (apiClient_not_401 serve fuel q (sent c1 b w) b2 o2) in Hrun; [| |done].
  2:{ intros r2 ->. eapply Hno; [|exact Hq]. apply refreshRequest_url. }
  set (q1 := AuthService.requestInterceptor (localStorage (sent c1 b w)) q) in *.
  destruct (settled q1 o2) as [resp|e].
  2:{ injection Hrun as <- _. exists [(q1, localStorage w)].
      split; [|simpl; lia]. rewrite toLogin_wire. unfold sent. cbn [wire localStorage].
      by rewrite <- app_assoc. }
  set (w2 := AuthService.storeTokens resp (sent q1 b2 (sent c1 b w))) in *.
  set (c2 := AuthService.retryRequest (localStorage w2) (set_retry true c1)) in *.
  destruct (serve (backend w2) (AuthService.requestInterceptor (localStorage w2) c2))
    as [b3 o3] eqn:H3.
  rewrite (apiClient_retried serve fuel c2 w2 b3 o3) in Hrun; [|reflexivity|done].
  injection Hrun as <- _.
  exists [(q1, localStorage w);
          (AuthService.requestInterceptor (localStorage w2) c2, localStorage w2)].
  split; [|simpl; lia].
  unfold sent at 1. cbn [wire]. unfold w2 at 1. rewrite storeTokens_wire.
  unfold sent. cbn [wire localStorage]. by rewrite <- !app_assoc.
Qed.

End Frame.

(** An outcome is an answer 401 or it is not. *)
Lemma classic_401 (o : Outcome) :
  (∃ r, o = Answer r ∧ status r = 401%Z) ∨ (∀ r, o = Answer r → status r ≠ 401%Z).
Proof.
  destruct o as [|r]; [by right|].
  destruct (Z.eq_dec (status r) 401%Z) as [H|H]; [left; eauto|].
  right. by intros r' [= <-].
Qed.

(** ** Tokens through a refresh, registration, and the context's refresh *)

Section Tokens.
Context {B : Type} (serve : B → Config → B * Outcome).

(** X4.  A request answered 401, and a refresh exchange answered with an
    accepted status and an envelope that reports success and carries a
    data object: afterwards storage holds, under [accessToken] and
    [refreshToken], the fields of that object (the string [undefined] for
    a field the object lacks), and the retry has gone out with the bearer
    header of the new access token. *)
Theorem refresh_persists_the_new_tokens
    (fuel : nat) (c : Config) (w : World B)
    (b1 b2 b3 : B) (r1 r2 : AxiosResponse) (d : Json) (o3 : Outcome) :
  let c1 := AuthService.requestInterceptor (localStorage w) c in
  let q := AuthService.requestInterceptor (localStorage w)
             (AuthService.refreshRequest (AuthService.getRefreshToken w)) in
  let access := to_String (d !! "accessToken") in
  let c2 := set_header "Authorization" ("Bearer " +:+ access) (set_retry true c1) in
  _retry c = false →
  truthy (AuthService.getRefreshToken w) = true →
  serve (backend w) c1 = (b1, Answer r1) → status r1 = 401%Z →
  serve b1 q = (b2, Answer r2) → validateStatus (status r2) = true →
  success (body r2) = true → payload (body r2) = Some d →
  serve b2 c2 = (b3, o3) →
  ∃ w',
    AuthService.apiClient serve (S (S fuel)) c w = Some (w', settled c2 o3)
    ∧ AuthService.getAccessToken w' = Some access
    ∧ AuthService.getRefreshToken w' = Some (to_String (d !! "refreshToken"))
    ∧ last (wire w') = Some (c2, localStorage w')
    ∧ headers c2 !! "Authorization" = Some ("Bearer " +:+ access).
Proof.
  intros c1 q access c2 Hr Ht H1 H401 H2 Hv Hok Hd H3.
  set (w2 := AuthService.storeTokens r2 (sent q b2 (sent c1 b1 w))).
  assert (Hst : localStorage w2
                = setItem "refreshToken" (to_String (d !! "refreshToken"))
                    (setItem "accessToken" access (localStorage w))).
  { unfold w2, AuthService.storeTokens. rewrite Hd, Hok. reflexivity. }
  assert (Hacc : getItem "accessToken" (localStorage w2) = Some access).
  { rewrite Hst. unfold getItem, setItem.
    rewrite lookup_insert_ne by done. apply lookup_insert_eq. }
  assert (Hc2 : AuthService.requestInterceptor (localStorage w2)
                  (AuthService.retryRequest (localStorage w2) (set_retry true c1)) = c2).
  { rewrite retry_header. unfold getItem in Hacc. by rewrite Hacc. }
  exists (sent c2 b3 w2). split; [|split; [|split; [|split]]].
  - rewrite <- Hc2 in H3 |- *.
    exact (apiClient_refresh_retry serve fuel c w b1 b2 b3 r1 r2 o3 Hr Ht H1 H401 H2 Hv H3).
  - exact Hacc.
  - unfold AuthService.getRefreshToken, sent. cbn [localStorage]. rewrite Hst.
    apply lookup_insert_eq.
  - unfold sent. cbn [wire localStorage]. apply last_snoc.
  - apply lookup_insert_eq.
Qed.

(** X5.  Once the backend call of a logout has settled, the browser is
    signed out for good: [isAuthenticated] is false, and the next start of
    the application resolves to anonymous without sending anything.  On
    the screen the logout shows at once: the routes are those of an
    anonymous session whether the call has settled or not. *)
Theorem logout_then_restart_is_anonymous
    (fuel : nat) (w : World B) (s : AuthContext.AuthState) :
  (AuthContext.loading s = false →
   App.AppRoutes (snd (AuthContext.logout serve fuel w s))
   = App.AppRoutes (AuthContext.mkAuthState None false))
  ∧ (∀ w', fst (AuthContext.logout serve fuel w s) = Some w' →
       AuthService.isAuthenticated w' = false
       ∧ ∀ fuel', AuthContext.initializeAuth serve fuel' w' AuthContext.initialState
                  = Some (w', AuthContext.mkAuthState None false)).
Proof.
  split.
  - intros Hl. unfold AuthContext.logout. cbn [snd]. unfold App.AppRoutes.
    cbn [AuthContext.setUser AuthContext.loading AuthContext.user]. by rewrite Hl.
  - intros w' Hw. unfold AuthContext.logout, AuthService.logout in Hw. cbn [fst] in Hw.
    destruct (AuthService.apiClient serve fuel (post "/auth/logout" None) w)
      as [[w1 p]|]; [|discriminate].
    injection Hw as <-.
    assert (Hf : truthy (AuthService.getAccessToken (AuthService.removeTokens w1)) = false).
    { unfold AuthService.getAccessToken, getItem. by rewrite removeTokens_access. }
    split; [exact Hf|]. intros fuel'. unfold AuthContext.initializeAuth. by rewrite Hf.
Qed.

(** X6.  Registration does not sign the user in.  From a browser without
    tokens, a registration that settles leaves storage without tokens and
    the session state as it was, whatever the backend answered, and has
    sent a single request: the POST of the form to [/auth/register]. *)
Theorem register_does_not_sign_in
    (fuel : nat) (data : Json) (w w' : World B) (s s' : AuthContext.AuthState)
    (p : Promise unit) :
  tokensCleared w →
  AuthContext.register serve fuel data w s = Some (w', s', p) →
  s' = s
  ∧ tokensCleared w'
  ∧ ∃ c, wire w' = wire w ++ [(c, localStorage w)]
         ∧ url c = "/auth/register" ∧ method c = POST ∧ Axios.data c = Some data
         ∧ headers c !! "Authorization" = None.
Proof.
  intros [Ha Hrt] Hrun.
  unfold AuthContext.register, AuthService.register in Hrun.
  destruct fuel as [|fuel]; [discriminate|].
  set (c := post "/auth/register" (Some data)) in *.
  assert (Hc1 : AuthService.requestInterceptor (localStorage w) c = c).
  { apply requestInterceptor_falsy. by rewrite Ha. }
  destruct (serve (backend w) (AuthService.requestInterceptor (localStorage w) c))
    as [b o] eqn:Hs.
  assert (Hreq : ∃ c0, wire (sent c b w) = wire w ++ [(c0, localStorage w)]
                   ∧ url c0 = "/auth/register" ∧ method c0 = POST
                   ∧ Axios.data c0 = Some data
                   ∧ headers c0 !! "Authorization" = None).
  { exists c. repeat split; reflexivity. }
  destruct (classic_401 o) as [(r & -> & H401)|Hne].
  - rewrite (apiClient_401 serve fuel c w b r eq_refl Hs H401) in Hrun. cbv zeta in Hrun.
    rewrite Hc1 in Hrun. unfold AuthService.refreshToken in Hrun.
    rewrite refreshToken_missing in Hrun
      by (unfold AuthService.getRefreshToken, getItem, sent; cbn [localStorage];
          by rewrite Hrt).
    injection Hrun as <- <- _. split; [done|]. split; [apply toLogin_cleared|].
    rewrite toLogin_wire. exact Hreq.
  - rewrite (apiClient_not_401 serve fuel c w b o Hne Hs) in Hrun. rewrite Hc1 in Hrun.
    destruct (settled c o); injection Hrun as <- <- _; (split; [done|]);
      (split; [by split|exact Hreq]).
Qed.

(** X7.  The context's [refreshToken] with no refresh token in storage:
    the refresh itself sends nothing, but the [logout()] of the [catch]
    block does call the backend.  The caller gets the error of the refresh,
    the user is set to [null], a single request, the POST to
    [/auth/logout], goes out, and both tokens are removed. *)
Theorem context_refresh_without_token_logs_out
    (fuel : nat) (w : World B) (s : AuthContext.AuthState) :
  truthy (AuthService.getRefreshToken w) = false →
  ∃ w',
    AuthContext.refreshToken serve (S fuel) w s
    = Some (Some w', AuthContext.setUser None s,
            Rejected (JsError "No refresh token available"))
    ∧ wire w'
      = wire w ++ [(AuthService.requestInterceptor (localStorage w)
                      (post "/auth/logout" None), localStorage w)]
    ∧ tokensCleared w'.
Proof.
  intros Ht. unfold AuthContext.refreshToken, AuthService.refreshToken.
  rewrite refreshToken_missing by done.
  unfold AuthContext.logout, AuthService.logout.
  set (c := post "/auth/logout" None).
  destruct (serve (backend w) (AuthService.requestInterceptor (localStorage w) c))
    as [b o] eqn:Hs.
  destruct (classic_401 o) as [(r & -> & H401)|Hne].
  - rewrite (apiClient_401 serve fuel c w b r eq_refl Hs H401). cbv zeta.
    unfold AuthService.refreshToken. rewrite refreshToken_missing by done.
    eexists. split; [reflexivity|]. split; [reflexivity|].
    split; [apply removeTokens_access | apply removeTokens_refresh].
  - rewrite (apiClient_not_401 serve fuel c w b o Hne Hs).
    eexists. split; [reflexivity|]. split; [reflexivity|].
    split; [apply removeTokens_access | apply removeTokens_refresh].
Qed.

End Tokens.

(** ** Service calls and startup *)

Section Calls.
Context {B : Type} (serve : B → Config → B * Outcome).

(** X8.  [portfolioService.deletePortfolio] sends one DELETE request to
    [/portfolios/<id>], with the bearer header of the request interceptor,
    and leaves storage and location alone.  It is fulfilled exactly when
    the backend answers with an accepted status and an envelope whose
    [success] flag is set; whether the envelope carries data does not
    matter. *)
Theorem deletePortfolio_needs_only_success
    (id : string) (w : World B) (b : B) (o : Outcome) :
  let c1 := PortfolioService.requestInterceptor (localStorage w)
              (PortfolioService.deleteRequest ("/portfolios/" +:+ id)) in
  serve (backend w) c1 = (b, o) →
  fst (PortfolioService.deletePortfolio serve id w) = sent c1 b w
  ∧ url c1 = "/portfolios/" +:+ id ∧ method c1 = DELETE
  ∧ (snd (PortfolioService.deletePortfolio serve id w) = Fulfilled tt
     ↔ ∃ r, o = Answer r ∧ validateStatus (status r) = true
            ∧ success (body r) = true).
Proof.
  intros c1 Hs. unfold PortfolioService.deletePortfolio, PortfolioService.apiClient.
  fold c1. rewrite (dispatch_eq serve _ _ _ _ Hs). unfold settle.
  split; [|split; [|split]].
  - destruct o as [|r]; [reflexivity|].
    destruct (validateStatus (status r)); [|reflexivity].
    by destruct (success (body r)).
  - unfold c1. apply requestInterceptor_url.
  - unfold c1, PortfolioService.requestInterceptor. by destruct (truthy _).
  - destruct o as [|r].
    + split; [discriminate|]. by intros (r & [=] & _).
    + destruct (validateStatus (status r)) eqn:Hv.
      * destruct (success (body r)) eqn:Hok; cbn [negb snd].
        -- split; [eauto|reflexivity].
        -- split; [discriminate|]. intros (r' & [= <-] & _ & Hok'). congruence.
      * split; [discriminate|]. intros (r' & [= <-] & Hv' & _). congruence.
Qed.

(** X9.  Startup with an access token in storage, the profile request
    answered with an accepted status and an envelope that reports success
    and carries the profile: the session resolves to that profile with
    [loading] false; one request has been sent, carrying the stored token,
    and storage is as it was. *)
Theorem startup_with_profile_is_authenticated
    (fuel : nat) (w : World B) (b : B) (r : AxiosResponse) (d : Json) :
  let c1 := AuthService.requestInterceptor (localStorage w) (get "/auth/profile") in
  truthy (AuthService.getAccessToken w) = true →
  serve (backend w) c1 = (b, Answer r) → validateStatus (status r) = true →
  success (body r) = true → payload (body r) = Some d →
  AuthContext.initializeAuth serve (S fuel) w AuthContext.initialState
  = Some (sent c1 b w, AuthContext.mkAuthState (Some d) false)
  ∧ headers c1 !! "Authorization"
    = Some ("Bearer " +:+ template (AuthService.getAccessToken w)).
Proof.
  intros c1 Ht Hs Hv Hok Hd. split.
  - unfold AuthContext.initializeAuth, AuthService.getProfile. rewrite Ht.
    rewrite (apiClient_S serve _ _ _ _ _ Hs). fold c1. unfold settle.
    by rewrite Hv, Hd, Hok.
  - unfold c1. rewrite requestInterceptor_truthy by exact Ht.
    apply lookup_insert_eq.
Qed.

(** X10.  Startup with an access token in storage, the profile request
    answered with an accepted status but an envelope that does not report
    success or carries no data: the HTTP exchange went well, and still the
    session resolves to anonymous and both tokens are removed. *)
Theorem startup_with_failed_envelope_signs_out
    (fuel : nat) (w : World B) (b : B) (r : AxiosResponse) :
  let c1 := AuthService.requestInterceptor (localStorage w) (get "/auth/profile") in
  truthy (AuthService.getAccessToken w) = true →
  serve (backend w) c1 = (b, Answer r) → validateStatus (status r) = true →
  success (body r) = false ∨ payload (body r) = None →
  AuthContext.initializeAuth serve (S fuel) w AuthContext.initialState
  = Some (AuthService.removeTokens (sent c1 b w), AuthContext.mkAuthState None false)
  ∧ tokensCleared (AuthService.removeTokens (sent c1 b w)).
Proof.
  intros c1 Ht Hs Hv Hbad. split.
  - unfold AuthContext.initializeAuth, AuthService.getProfile. rewrite Ht.
    rewrite (apiClient_S serve _ _ _ _ _ Hs). fold c1. unfold settle. rewrite Hv.
    destruct (payload (body r)) as [d|]; [|reflexivity].
    destruct Hbad as [->|Hd]; [reflexivity|discriminate].
  - split; [apply removeTokens_access | apply removeTokens_refresh].
Qed.

End Calls.

(** ** Routes and dashboard *)

Section Routing.
Import App.

(** X11.  While the session is loading, [AppRoutes] shows the spinner and
    no route.  Once it has resolved to anonymous, no route shows a page
    other than the login page, at [/login], and the registration page, at
    [/register]: every other route is a redirect to [/login]. *)
Theorem anonymous_sees_only_login_and_register (s : AuthContext.AuthState) :
  (AuthContext.loading s = true → AppRoutes s = LoadingSpinner)
  ∧ (AuthContext.loading s = false → AuthContext.user s = None →
     ∃ routes,
       AppRoutes s = Routes routes
       ∧ Forall (λ r, snd r = Navigate "/login"
                      ∨ r = ("/login", Render LoginPage)
                      ∨ r = ("/register", Render RegisterPage)) routes).
Proof.
  destruct s as [u l]. cbn [AuthContext.loading AuthContext.user]. split.
  - intros ->. reflexivity.
  - intros -> ->. eexists. split; [reflexivity|].
    repeat (apply List.Forall_cons; [cbn [snd ifUser]; auto|]).
    apply List.Forall_nil.
Qed.

(** X12.  A redirect never leads to another redirect: in every resolved
    session state, the target of every [Navigate] element is the path of a
    route of the same table whose element is a page. *)
Theorem redirects_land_on_a_page (s : AuthContext.AuthState) (routes : list (string * Element)) :
  AppRoutes s = Routes routes →
  Forall (λ r, ∀ target, snd r = Navigate target →
               ∃ page, elementAt target routes = Some (Render page)) routes.
Proof.
  destruct s as [[u|] [|]]; unfold AppRoutes;
    cbn [AuthContext.loading AuthContext.user]; intros [= <-];
    repeat constructor; cbn [snd ifUser]; intros target [= <-];
    eexists; reflexivity.
Qed.

End Routing.

Section Modules.
Import App DashboardPage AuthService.

Lemma filter_sublist {A} (f : A → bool) (l : list A) : sublist (List.filter f l) l.
Proof.
  induction l as [|x l IH]; simpl; [constructor|].
  destruct (f x); by constructor.
Qed.

Lemma roleAccess_other (role : string) :
  (∀ r, role ≠ roleName r) → roleAccess role = None.
Proof.
  intros Hne. unfold roleAccess.
  destruct (String.eqb_spec role (roleName ADMIN)) as [E|_]; [by destruct (Hne ADMIN)|].
  destruct (String.eqb_spec role (roleName PORTFOLIO_MANAGER)) as [E|_];
    [by destruct (Hne PORTFOLIO_MANAGER)|].
  destruct (String.eqb_spec role (roleName RESEARCHER)) as [E|_];
    [by destruct (Hne RESEARCHER)|].
  destruct (String.eqb_spec role (roleName CLIENT)) as [E|_];
    [by destruct (Hne CLIENT)|].
  reflexivity.
Qed.

(** X13.  For each of the four roles of [UserRole], [getModuleAccess]
    returns modules of [allModules], in the same order, and among them
    strategy builder, backtesting, analytics and market data.  Whatever the
    role string, the user-management module is among the modules returned
    only for [ADMIN].  A role string that is not the value of one of the
    four roles gets no module at all: the empty array, or, when it names a
    property inherited from [Object.prototype], that property instead of
    an array. *)
Theorem module_access_by_role :
  (∀ r : UserRole,
     ∃ cards,
       getModuleAccess (roleName r) = Modules cards
       ∧ sublist cards allModules
       ∧ (∀ m, m ∈ allModules →
            name m ∈ ["Strategy Builder"; "Backtesting"; "Analytics & Reporting";
                      "Market Data Service"] →
            m ∈ cards))
  ∧ (∀ (role : string) (cards : list ModuleCard) (m : ModuleCard),
       getModuleAccess role = Modules cards → m ∈ cards →
       name m = "User Management" → role = "ADMIN")
  ∧ (∀ role : string,
       (∀ r, role ≠ roleName r) →
       getModuleAccess role
       = if includes objectPrototype role then Inherited role else Modules []).
Proof.
  split; [|split].
  - intros r.
    destruct r; (eexists; split; [reflexivity|]; split;
      [first [apply filter_sublist | reflexivity]|]);
      intros m Hm Hname; unfold allModules in Hm;
      repeat (apply elem_of_cons in Hm as [->|Hm];
              [first [ solve [vm_compute; repeat constructor]
                     | solve [exfalso; cbn [name] in Hname;
                              repeat (apply elem_of_cons in Hname as [Hname|Hname];
                                      [discriminate Hname|]);
                              by apply elem_of_nil in Hname] ]|]);
      by apply elem_of_nil in Hm.
  - intros role cards m Hacc Hm Hname. unfold getModuleAccess, roleAccess in Hacc.
    destruct (String.eqb_spec role (roleName ADMIN)) as [E|_]; [exact E|]. exfalso.
    destruct (String.eqb_spec role (roleName PORTFOLIO_MANAGER)) as [_|_];
      [|destruct (String.eqb_spec role (roleName RESEARCHER)) as [_|_];
        [|destruct (String.eqb_spec role (roleName CLIENT)) as [_|_];
          [|destruct (includes objectPrototype role); [discriminate Hacc|]]]];
      injection Hacc as <-; vm_compute in Hm;
      repeat (apply elem_of_cons in Hm as [->|Hm]; [discriminate Hname|]);
      by apply elem_of_nil in Hm.
  - intros role Hne. unfold getModuleAccess. by rewrite roleAccess_other.
Qed.

(** X14.  The routes do not look at the role.  For a signed-in user,
    whatever the profile says, the path of every module card is a route
    that shows a page, also for the cards [getModuleAccess] withholds from
    the user's role: the trade desk is not offered to a researcher, and
    [/trade-desk] shows the trade desk page to any signed-in user. *)
Theorem routes_ignore_the_role (u : Json) :
  ∃ routes,
    AppRoutes (AuthContext.mkAuthState (Some u) false) = Routes routes
    ∧ Forall (λ m, ∀ p, path m = Some p →
                   ∃ page, elementAt p routes = Some (Render page)) allModules
    ∧ elementAt "/trade-desk" routes = Some (Render TradeDeskPage)
    ∧ ∃ cards,
        getModuleAccess (roleName RESEARCHER) = Modules cards
        ∧ ¬ (∃ m, m ∈ cards ∧ path m = Some "/trade-desk").
Proof.
  eexists. split; [reflexivity|]. split; [|split].
  - repeat constructor; cbn [path]; intros p [= <-]; eexists; reflexivity.
  - reflexivity.
  - eexists. split; [reflexivity|].
    intros (m & Hm & Hp). vm_compute in Hm.
    repeat (apply elem_of_cons in Hm as [->|Hm]; [discriminate Hp|]).
    by apply elem_of_nil in Hm.
Qed.

End Modules.

(** ** The tag list of the strategy form *)

Section Tags.
Import StrategyBuilderPage.
Variable trim : string → string.

Lemma filter_absent (t : string) (l : list string) :
  t ∉ l → filter (λ tag, tag ≠ t) l = l.
Proof.
  induction l as [|x l IH]; intros Hin; [reflexivity|].
  apply not_elem_of_cons in Hin as [Hne Hin].
  rewrite filter_cons_True by congruence. by rewrite IH.
Qed.

(** X15.  The tag list stays free of duplicates and of empty tags
    through [addTag] and [removeTag], and after [removeTag] the removed tag
    is not in the list; a tag that is blank after trimming, or already in
    the list, is not added, and then nothing changes, the input field
    included. *)
Theorem tags_stay_distinct (f : Form) (t : string) :
  NoDup (orEmpty (tags (formData f))) →
  EmptyString ∉ orEmpty (tags (formData f)) →
  (NoDup (orEmpty (tags (formData (addTag trim f))))
   ∧ EmptyString ∉ orEmpty (tags (formData (addTag trim f))))
  ∧ (NoDup (orEmpty (tags (formData (removeTag t f))))
     ∧ (EmptyString ∉ orEmpty (tags (formData (removeTag t f))))
     ∧ (t ∉ orEmpty (tags (formData (removeTag t f)))))
  ∧ ((trim (tagInput f) = EmptyString
      ∨ trim (tagInput f) ∈ orEmpty (tags (formData f))) →
     addTag trim f = f).
Proof.
  intros Hnd Hne. split; [|split].
  - unfold addTag.
    destruct (String.eqb_spec (trim (tagInput f)) EmptyString) as [He|He];
      cbn [negb andb]; [done|].
    destruct (tags (formData f)) as [l|] eqn:Hl; cbn [orEmpty] in *.
    + destruct (bool_decide (trim (tagInput f) ∈ l)) eqn:Hd; cbn [negb].
      * rewrite Hl. done.
      * apply bool_decide_eq_false in Hd. cbn [formData set_tags tags orEmpty].
        split.
        -- apply NoDup_app. split; [done|]. split; [|apply NoDup_singleton].
           intros x Hx Hx'. apply list_elem_of_singleton in Hx'. by subst.
        -- apply not_elem_of_app. split; [done|].
           intros Hx. apply list_elem_of_singleton in Hx. by destruct He.
    + cbn [negb formData set_tags tags orEmpty app]. split.
      * apply NoDup_singleton.
      * intros Hx. apply list_elem_of_singleton in Hx. by destruct He.
  - unfold removeTag. cbn [formData set_tags tags orEmpty].
    destruct (tags (formData f)) as [l|]; cbn [orEmpty] in *.
    + split; [by apply NoDup_filter|]. split.
      * intros Hx. apply list_elem_of_filter in Hx as [_ Hx]. by destruct Hne.
      * intros Hx. apply list_elem_of_filter in Hx as [Hx _]. by destruct Hx.
    + split; [constructor|]. split; apply not_elem_of_nil.
  - intros Hcase. unfold addTag.
    destruct (String.eqb_spec (trim (tagInput f)) EmptyString) as [He|He];
      cbn [negb andb]; [done|].
    destruct Hcase as [Hcase|Hcase]; [done|].
    destruct (tags (formData f)) as [l|]; cbn [orEmpty] in Hcase.
    + by rewrite bool_decide_eq_true_2.
    + by apply elem_of_nil in Hcase.
Qed.

(** X16.  Adding a tag and removing it again gives the form data back.
    When the list is there, the input is not blank after trimming and the
    trimmed input is not yet in the list, [addTag] appends the trimmed
    input at the end, touches no other field and empties the input; and
    [removeTag] of that tag restores the form data. *)
Theorem addTag_then_removeTag (f : Form) (l : list string) :
  tags (formData f) = Some l →
  trim (tagInput f) ≠ EmptyString →
  trim (tagInput f) ∉ l →
  addTag trim f
  = mkForm (set_tags (l ++ [trim (tagInput f)]) (formData f)) EmptyString
  ∧ formData (removeTag (trim (tagInput f)) (addTag trim f)) = formData f.
Proof.
  intros Hl He Hin.
  assert (Hadd : addTag trim f
                 = mkForm (set_tags (l ++ [trim (tagInput f)]) (formData f)) EmptyString).
  { unfold addTag. rewrite Hl. cbn [orEmpty].
    destruct (String.eqb_spec (trim (tagInput f)) EmptyString) as [He'|_]; [done|].
    by rewrite bool_decide_eq_false_2. }
  split; [exact Hadd|]. rewrite Hadd. unfold removeTag.
  cbn [formData set_tags tags].
  rewrite filter_app, filter_absent by done.
  rewrite filter_cons_False by (intros Hx; by apply Hx).
  rewrite filter_nil, app_nil_r.
  destruct f as [[n d sy tf cj st tg] ti]. cbn in Hl |- *. by rewrite Hl.
Qed.

End Tags.

(** ** The further properties on concrete runs *)

Section FurtherRuns.
Import Backends Scenarios Cases.

(** A refresh that fails tears the session down and keeps the theme. *)
Lemma client_touches_only_the_tokens_witness :
  ∃ w' p,
    AuthService.apiClient scripted 3 profile themed = Some (w', p)
    ∧ localStorage w' !! "theme" = Some "dark"
    ∧ tokensCleared w'.
Proof.
  eassert (Hrun : AuthService.apiClient scripted 3 profile themed = Some (_, _))
    by (vm_compute; reflexivity).
  eexists _, _. split; [exact Hrun|]. split.
  - rewrite (client_touches_only_the_tokens scripted 3 profile themed _ _ "theme"
               ltac:(discriminate) ltac:(discriminate) Hrun).
    reflexivity.
  - split; vm_compute; reflexivity.
Defined.

(** The same run ends on the login page, rejected. *)
Lemma client_redirects_only_with_teardown_witness :
  ∃ w' p,
    AuthService.apiClient scripted 3 profile themed = Some (w', p)
    ∧ href w' = "/login" ∧ tokensCleared w' ∧ ∃ e, p = Rejected e.
Proof.
  eassert (Hrun : AuthService.apiClient scripted 3 profile themed = Some (_, _))
    by (vm_compute; reflexivity).
  eexists _, _. split; [exact Hrun|].
  apply (client_redirects_only_with_teardown scripted 3 profile themed _ _ Hrun).
  vm_compute. discriminate.
Defined.

(** Against a backend that fails every request, one request goes out. *)
Lemma client_sends_at_most_three_witness :
  ∃ w' p rest,
    AuthService.apiClient (constant serverError) 2 profile failing = Some (w', p)
    ∧ wire w'
      = wire failing
        ++ (AuthService.requestInterceptor (localStorage failing) profile,
            localStorage failing) :: rest
    ∧ length rest ≤ 2.
Proof.
  eassert (Hrun : AuthService.apiClient (constant serverError) 2 profile failing
                  = Some (_, _))
    by (vm_compute; reflexivity).
  destruct (client_sends_at_most_three (constant serverError) 2 profile failing _ _
              constant_serverError_never_401 Hrun) as (rest & Hwire & Hlen).
  eexists _, _, rest. split; [exact Hrun|]. by split.
Defined.

(** The refresh of [recovered] stores [new] and [r2]. *)
Lemma refresh_persists_the_new_tokens_witness :
  ∃ w',
    AuthService.apiClient scripted 2 profile recovered
    = Some (w', Fulfilled (r200 None))
    ∧ AuthService.getAccessToken w' = Some "new"
    ∧ AuthService.getRefreshToken w' = Some "r2".
Proof.
  destruct (refresh_persists_the_new_tokens scripted 0 profile recovered
              [ok (Some (tokens "new" "r2")); ok None] [ok None] []
              r401 (r200 (Some (tokens "new" "r2"))) (tokens "new" "r2") (ok None))
    as (w' & Hrun & Ha & Hr & _); try reflexivity.
  exists w'. split; [exact Hrun|]. split; [exact Ha|exact Hr].
Defined.

(** Logging out against a failing backend, then starting again. *)
Lemma logout_then_restart_is_anonymous_witness :
  ∃ w',
    fst (AuthContext.logout (constant serverError) 2 failing signedIn) = Some w'
    ∧ AuthService.isAuthenticated w' = false
    ∧ AuthContext.initializeAuth (constant serverError) 5 w' AuthContext.initialState
      = Some (w', AuthContext.mkAuthState None false).
Proof.
  eassert (Hout : fst (AuthContext.logout (constant serverError) 2 failing signedIn)
                  = Some _)
    by (vm_compute; reflexivity).
  destruct (logout_then_restart_is_anonymous (constant serverError) 2 failing signedIn)
    as (_ & H).
  destruct (H _ Hout) as (Hauth & Hinit).
  eexists. split; [exact Hout|]. split; [exact Hauth|apply Hinit].
Defined.

(** Registering from a signed-out browser, the backend answering 401. *)
Lemma register_does_not_sign_in_witness :
  ∃ w' p,
    AuthContext.register scripted 2 newUser signedOut401 AuthContext.initialState
    = Some (w', AuthContext.initialState, p)
    ∧ tokensCleared w' ∧ length (wire w') = 1.
Proof.
  eassert (Hrun : AuthContext.register scripted 2 newUser signedOut401
                    AuthContext.initialState = Some (_, _, _))
    by (vm_compute; reflexivity).
  destruct (register_does_not_sign_in scripted 2 newUser signedOut401 _
              AuthContext.initialState _ _ ltac:(split; reflexivity) Hrun)
    as (Hs & Hclr & c & Hwire & _).
  eexists _, _. split; [exact Hrun|]. split; [exact Hclr|].
  rewrite Hwire. reflexivity.
Defined.

(** The context's refresh from a signed-out browser. *)
Lemma context_refresh_without_token_logs_out_witness :
  ∃ w',
    AuthContext.refreshToken scripted 1 loggedOut signedIn
    = Some (Some w', AuthContext.setUser None signedIn,
            Rejected (JsError "No refresh token available"))
    ∧ length (wire w') = 1.
Proof.
  destruct (context_refresh_without_token_logs_out scripted 0 loggedOut signedIn)
    as (w' & Hrun & Hwire & _); [reflexivity|].
  exists w'. split; [exact Hrun|]. rewrite Hwire. reflexivity.
Defined.

(** Deleting portfolio 42, served with a bare success envelope. *)
Lemma deletePortfolio_needs_only_success_witness :
  snd (PortfolioService.deletePortfolio scripted "42" (served None)) = Fulfilled tt.
Proof.
  destruct (deletePortfolio_needs_only_success scripted "42" (served None) []
              (ok None)) as (_ & _ & _ & H); [reflexivity|].
  apply H. eexists. split; [reflexivity|]. split; reflexivity.
Defined.

(** Startup with the profile served. *)
Lemma startup_with_profile_is_authenticated_witness :
  ∃ w',
    AuthContext.initializeAuth scripted 1 (served (Some adaProfile))
      AuthContext.initialState
    = Some (w', AuthContext.mkAuthState (Some adaProfile) false).
Proof.
  destruct (startup_with_profile_is_authenticated scripted 0 (served (Some adaProfile))
              [] (r200 (Some adaProfile)) adaProfile) as (Hrun & _);
    try reflexivity.
  eexists. exact Hrun.
Defined.

(** Startup with HTTP 200 and [success: false]. *)
Lemma startup_with_failed_envelope_signs_out_witness :
  ∃ w',
    AuthContext.initializeAuth scripted 1 servedFailure AuthContext.initialState
    = Some (w', AuthContext.mkAuthState None false)
    ∧ tokensCleared w'.
Proof.
  destruct (startup_with_failed_envelope_signs_out scripted 0 servedFailure []
              (mkResponse 200 (mkApiResponse false "No such user" None)))
    as (Hrun & Hclr); try reflexivity; [by left|].
  eexists. split; [exact Hrun|exact Hclr].
Defined.

(** The routes of the initial and of the anonymous state. *)
Lemma anonymous_sees_only_login_and_register_witness :
  App.AppRoutes AuthContext.initialState = App.LoadingSpinner
  ∧ ∃ routes,
      App.AppRoutes (AuthContext.mkAuthState None false) = App.Routes routes
      ∧ Forall (λ r, snd r = App.Navigate "/login"
                     ∨ r = ("/login", App.Render App.LoginPage)
                     ∨ r = ("/register", App.Render App.RegisterPage)) routes.
Proof.
  split.
  - apply (anonymous_sees_only_login_and_register AuthContext.initialState).
    reflexivity.
  - apply (anonymous_sees_only_login_and_register (AuthContext.mkAuthState None false));
      reflexivity.
Defined.

(** The redirect of [/login] for a signed-in user lands on the dashboard. *)
Lemma redirects_land_on_a_page_witness :
  ∃ routes,
    App.AppRoutes signedIn = App.Routes routes
    ∧ ∃ page, App.elementAt "/dashboard" routes = Some (App.Render page).
Proof.
  eassert (Hr : App.AppRoutes signedIn = App.Routes _) by reflexivity.
  eexists. split; [exact Hr|].
  pose proof (redirects_land_on_a_page signedIn _ Hr) as H.
  apply List.Forall_inv in H. apply (H "/dashboard"). reflexivity.
Defined.

(** A role the enum does not know gets no module; a researcher is not
    offered user management. *)
Lemma module_access_by_role_witness :
  DashboardPage.getModuleAccess "GUEST" = DashboardPage.Modules []
  ∧ ∀ cards m,
      DashboardPage.getModuleAccess "RESEARCHER" = DashboardPage.Modules cards →
      m ∈ cards → DashboardPage.name m ≠ "User Management".
Proof.
  destruct module_access_by_role as (_ & Hadmin & Hother). split.
  - rewrite (Hother "GUEST"); [reflexivity|]. intros []; discriminate.
  - intros cards m Hacc Hm Hname.
    discriminate (Hadmin "RESEARCHER" cards m Hacc Hm Hname).
Defined.

(** The market-data card of the dashboard leads to a page. *)
Lemma routes_ignore_the_role_witness :
  ∃ routes,
    App.AppRoutes (AuthContext.mkAuthState (Some adaProfile) false) = App.Routes routes
    ∧ App.elementAt "/trade-desk" routes = Some (App.Render App.TradeDeskPage).
Proof.
  destruct (routes_ignore_the_role adaProfile) as (routes & Hr & _ & Ht & _).
  exists routes. by split.
Defined.

(** Tags of a form, with the identity for [trim]. *)
Lemma tags_stay_distinct_witness :
  NoDup (StrategyBuilderPage.orEmpty
           (StrategyBuilderPage.tags
              (StrategyBuilderPage.formData
                 (StrategyBuilderPage.addTag (λ x, x) taggedForm)))).
Proof.
  apply (tags_stay_distinct (λ x, x) taggedForm "rsi").
  - cbn. repeat constructor;
      repeat (rewrite ?not_elem_of_cons, ?elem_of_nil); intuition discriminate.
  - cbn. rewrite !not_elem_of_cons. repeat split; try discriminate.
    apply not_elem_of_nil.
Defined.

Lemma addTag_then_removeTag_witness :
  StrategyBuilderPage.tags
    (StrategyBuilderPage.formData (StrategyBuilderPage.addTag (λ x, x) taggedForm))
  = Some ["rsi"; "intraday"; "momentum"]
  ∧ StrategyBuilderPage.formData
      (StrategyBuilderPage.removeTag "momentum"
         (StrategyBuilderPage.addTag (λ x, x) taggedForm))
    = StrategyBuilderPage.formData taggedForm.
Proof.
  destruct (addTag_then_removeTag (λ x, x) taggedForm ["rsi"; "intraday"])
    as (Hadd & Hback).
  - reflexivity.
  - discriminate.
  - cbn. rewrite !not_elem_of_cons. repeat split; try discriminate.
    apply not_elem_of_nil.
  - split; [by rewrite Hadd|exact Hback].
Defined.

End FurtherRuns.

(** ** Logging out against a backend that answers 401 *)

Section LogoutPending.
Import Backends Scenarios.



End LogoutPending.
